(** * AllYouNeedIsWheel: the dashboard's order module

    A shallow embedding of [frontend/static/js/dashboard/orders.js] (and of
    [formatCurrency] from [account.js]): the pending/filled order stores, the
    auto-refresh timer, the status poll and its merge, the quantity editor,
    the date formatter and the weekly earnings summary.

    JavaScript numbers are IEEE-754 doubles and are modelled by Rocq's
    primitive [float]; order records and gateway fragments are JavaScript
    objects and are modelled as finite maps from property names to values. *)

From Stdlib Require Import Floats ZArith NArith Ascii String Permutation.
From stdpp Require Import gmap strings list pretty.

Set Warnings "-inexact-float".
Local Open Scope string_scope.

(** ** JavaScript values and coercions *)

Module JS.

(** The values an order property can hold once the gateway's JSON has been
    parsed: a missing property reads as [Undefined]. *)
Inductive value : Type :=
| Undefined
| Null
| Bool (b : bool)
| Num (x : float)
| Str (s : string).

(** ToBoolean. *)
Definition truthy (v : value) : bool :=
  match v with
  | Undefined | Null => false
  | Bool b => b
  | Num x => negb (PrimFloat.is_nan x || PrimFloat.is_zero x)
  | Str s => negb (s =? "")%string
  end.

(** [a || b] on values. *)
Definition or (a b : value) : value := if truthy a then a else b.

Definition isNumber (v : value) : bool :=
  match v with Num _ => true | _ => false end.

(** The nearest double of a natural number (round to nearest, ties to
    even), as the conversion of a parsed integer literal. *)
Definition ofN (n : N) : float :=
  SF2Prim (binary_normalize prec emax (Z.of_N n) 0 false).

(** *** parseInt *)

Definition isWhiteSpace (c : ascii) : bool :=
  let n := N_of_ascii c in
  ((9 <=? n) && (n <=? 13) || (n =? 32))%N.

Fixpoint trimStart (s : string) : string :=
  match s with
  | String c s' => if isWhiteSpace c then trimStart s' else s
  | EmptyString => s
  end.

Definition digitValue (c : ascii) : option N :=
  let n := N_of_ascii c in
  if ((48 <=? n) && (n <=? 57))%N then Some (n - 48)%N
  else if ((97 <=? n) && (n <=? 122))%N then Some (n - 87)%N
  else if ((65 <=? n) && (n <=? 90))%N then Some (n - 55)%N
  else None.

(** The longest prefix of [s] made of digits of radix [R], read as an
    integer; [acc] is [None] until a first digit has been read. *)
Fixpoint digitsPrefix (R : N) (s : string) (acc : option N) : option N :=
  match s with
  | EmptyString => acc
  | String c s' =>
      match digitValue c with
      | Some d =>
          if (d <? R)%N
          then digitsPrefix R s' (Some (default 0%N acc * R + d)%N)
          else acc
      | None => acc
      end
  end.

Definition stripSign (s : string) : bool * string :=
  match s with
  | String "-"%char r => (true, r)
  | String "+"%char r => (false, r)
  | _ => (false, s)
  end.

Definition stripHexPrefix (s : string) : N * string :=
  match s with
  | String "0"%char (String "x"%char r) => (16%N, r)
  | String "0"%char (String "X"%char r) => (16%N, r)
  | _ => (10%N, s)
  end.

(** [parseInt(s, 10)] when [radix10], [parseInt(s)] otherwise (a leading
    [0x] then selects radix 16). *)
Definition parseIntString (radix10 : bool) (s : string) : float :=
  let '(neg, s2) := stripSign (trimStart s) in
  let '(R, s3) := if radix10 then (10%N, s2) else stripHexPrefix s2 in
  match digitsPrefix R s3 None with
  | None => nan
  | Some n => if neg then (- ofN n)%float else ofN n
  end.

Section Runtime.

(** Two conversions of the language are left to the runtime: the
    StringToNumber grammar and Number::toString. *)
Variable StringToNumber : string -> float.
Variable NumberToString : float -> string.

Definition ToNumber (v : value) : float :=
  match v with
  | Undefined => nan
  | Null => 0%float
  | Bool b => if b then 1%float else 0%float
  | Num x => x
  | Str s => StringToNumber s
  end.

Definition ToString (v : value) : string :=
  match v with
  | Undefined => "undefined"
  | Null => "null"
  | Bool b => if b then "true" else "false"
  | Num x => NumberToString x
  | Str s => s
  end.

Definition parseInt (radix10 : bool) (v : value) : float :=
  parseIntString radix10 (ToString v).

(** [a === b]. *)
Definition strictEq (a b : value) : bool :=
  match a, b with
  | Undefined, Undefined => true
  | Null, Null => true
  | Bool x, Bool y => Bool.eqb x y
  | Num x, Num y => (x =? y)%float
  | Str x, Str y => (x =? y)%string
  | _, _ => false
  end.

(** [a == b] (IsLooselyEqual). *)
Definition looseEq (a b : value) : bool :=
  match a, b with
  | (Undefined | Null), (Undefined | Null) => true
  | (Undefined | Null), _ | _, (Undefined | Null) => false
  | Str x, Str y => (x =? y)%string
  | _, _ => (ToNumber a =? ToNumber b)%float
  end.

End Runtime.

End JS.

Import JS.

(** ** What the page shares with its surroundings *)

(** An order record and a gateway fragment are both plain objects. *)
Abbreviation order := (gmap string value).

(** [o.k]: a missing property reads as [undefined]. *)
Definition get (o : order) (k : string) : value := default Undefined (o !! k).

(** A settled promise of the gateway client: the awaited value, or the
    [message] of the error it rejected with. *)
Inductive outcome (A : Type) : Type :=
| Resolved (a : A)
| Rejected (message : value).
Arguments Resolved {A} a.
Arguments Rejected {A} message.

(** [executeOrder(id)] answers [{ib_order_id, execution_details?}]. *)
Record executeResult : Type := {
  ib_order_id : value;
  execution_details : option order
}.

(** [cancelOrder(id)] answers [{ib_status}]. *)
Record cancelResult : Type := { ib_status : value }.

(** [checkOrderStatus()] answers [{success, updated_orders}]; the whole
    answer may be null and [updated_orders] may be missing. *)
Record statusResult : Type := {
  success : value;
  updated_orders : option (list order)
}.

(** The [fetch] response of the quantity endpoint: [ok], [statusText], and
    how reading its body ([text()] or [json()]) settles. *)
Record httpResponse : Type := {
  ok : bool;
  statusText : value;
  body : outcome unit
}.

Inductive request : Type :=
| ReqExecuteOrder (orderId : value)
| ReqCancelOrder (orderId : value)
| ReqCheckOrderStatus
| ReqFetchPendingOrders (executed : bool)
| ReqPutQuantity (orderId : value) (quantity : float).

(** The texts handed to [showAlert]. *)
Inductive notice : Type :=
| OrderSent (ibOrderId : value)
| ExecuteError (message : value)
| CancelRequested
| CancelError (message : value)
| LoadPendingError
| LoadFilledError
| QuantityUpdated (quantity : float)
| QuantityFailed (statusText : value)
| QuantityError (message : value).

(** What the module does to the outside: gateway requests and alerts, in
    the order they happen. *)
Inductive event : Type :=
| Request (r : request)
| Alert (level : string) (n : notice).

(** The three text nodes of the weekly earnings summary. *)
Record summary : Type := {
  weekly_earnings_total : string;
  weekly_order_count : nat;
  weekly_average_premium : string
}.

(** The module's variables ([pendingOrdersData], [filledOrdersData],
    [autoRefreshTimer]) and the part of the browser they act on: the
    interval timers that are running, the next handle [setInterval] will
    return (handles are positive, hence truthy), whether the two tables are
    in the document, the summary's text and the trace of events.  The rows
    written into the tables are presentation only and are not kept. *)
Record State : Type := mkState {
  pendingOrdersData : list order;
  filledOrdersData : list order;
  autoRefreshTimer : option positive;
  intervals : list positive;
  nextHandle : positive;
  pendingTable : bool;
  filledTable : bool;
  weeklySummary : summary;
  trace : list event
}.

Definition setPending (l : list order) (s : State) : State :=
  mkState l (filledOrdersData s) (autoRefreshTimer s) (intervals s)
          (nextHandle s) (pendingTable s) (filledTable s) (weeklySummary s)
          (trace s).

Definition setFilled (l : list order) (s : State) : State :=
  mkState (pendingOrdersData s) l (autoRefreshTimer s) (intervals s)
          (nextHandle s) (pendingTable s) (filledTable s) (weeklySummary s)
          (trace s).

Definition setSummary (w : summary) (s : State) : State :=
  mkState (pendingOrdersData s) (filledOrdersData s) (autoRefreshTimer s)
          (intervals s) (nextHandle s) (pendingTable s) (filledTable s) w
          (trace s).

Definition emit (e : event) (s : State) : State :=
  mkState (pendingOrdersData s) (filledOrdersData s) (autoRefreshTimer s)
          (intervals s) (nextHandle s) (pendingTable s) (filledTable s)
          (weeklySummary s) (trace s ++ [e]).

(** [Array.prototype.findIndex]: the first index whose element satisfies
    [p]; [None] stands for -1. *)
Fixpoint findIndex {A : Type} (p : A -> bool) (l : list A) : option nat :=
  match l with
  | [] => None
  | x :: l' => if p x then Some 0 else S <$> findIndex p l'
  end.

(** [Array.prototype.find]. *)
Fixpoint findFirst {A : Type} (p : A -> bool) (l : list A) : option A :=
  match l with
  | [] => None
  | x :: l' => if p x then Some x else findFirst p l'
  end.

(** ** The auto-refresh timer *)

(** [startAutoRefresh]. *)
Definition startAutoRefresh (s : State) : State :=
  match autoRefreshTimer s with
  | Some _ => s
  | None =>
      let h := nextHandle s in
      mkState (pendingOrdersData s) (filledOrdersData s) (Some h)
              (h :: intervals s) (Pos.succ h) (pendingTable s) (filledTable s)
              (weeklySummary s) (trace s)
  end.

(** [clearInterval(h)]. *)
Definition clearInterval (h : positive) (l : list positive) : list positive :=
  List.filter (fun k => negb (Pos.eqb k h)) l.

(** [stopAutoRefresh]. *)
Definition stopAutoRefresh (s : State) : State :=
  match autoRefreshTimer s with
  | Some h =>
      mkState (pendingOrdersData s) (filledOrdersData s) None
              (clearInterval h (intervals s)) (nextHandle s) (pendingTable s)
              (filledTable s) (weeklySummary s) (trace s)
  | None => s
  end.

(** [pendingOrdersData.some(o => ['processing','canceling'].includes(o.status))]. *)
Definition isTransient (o : order) : bool :=
  match get o "status" with
  | Str st => (st =? "processing")%string || (st =? "canceling")%string
  | _ => false
  end.

Definition hasTransient (orders : list order) : bool := existsb isTransient orders.

(** ** A sample host

    The model leaves to its host what the browser decides: number and date
    conversions, the time zone, the currency format and the sort.  To run
    the model on concrete inputs we fix one host: UTC as the time zone,
    integers for the number and string conversions (the samples use no
    other), a stable insertion sort. *)

Module UTC.

Definition ofZ (z : Z) : float :=
  SF2Prim (binary_normalize prec emax z 0 false).

(** The largest integer not above a finite double. *)
Definition floorZ (x : float) : option Z :=
  match Prim2SF x with
  | S754_zero _ => Some 0%Z
  | S754_finite sgn m e =>
      let z := if sgn then Z.neg m else Z.pos m in
      Some (if (0 <=? e)%Z then z * 2 ^ e else z / 2 ^ (- e))%Z
  | _ => None
  end.

(** The integer a double is, when it is one. *)
Definition toZ (x : float) : option Z :=
  match floorZ x with
  | Some z => if (ofZ z =? x)%float then Some z else None
  | None => None
  end.

Definition decimal (z : Z) : string := pretty z.

Definition NumberToString (x : float) : string :=
  match toZ x with
  | Some z => decimal z
  | None => "NaN"
  end.

Definition isDigit (c : ascii) : bool :=
  let n := N_of_ascii c in ((48 <=? n) && (n <=? 57))%N.

Fixpoint allDigits (s : string) : bool :=
  match s with
  | EmptyString => true
  | String c s' => isDigit c && allDigits s'
  end.

Definition StringToNumber (s : string) : float :=
  match s with
  | EmptyString => 0%float
  | _ =>
      match snd (stripSign s) with
      | EmptyString => nan
      | digits => if allDigits digits then parseIntString true s else nan
      end
  end.

(** [new Date(v)]: a number is clipped to the range of time values and
    truncated; the sample host parses no date strings. *)
Definition DateValue (v : value) : float :=
  match v with
  | Str _ | Undefined => nan
  | _ =>
      let x := JS.ToNumber StringToNumber v in
      if (PrimFloat.abs x <=? 8640000000000000)%float then
        match floorZ (PrimFloat.abs x) with
        | Some z => if (x <? 0)%float then ofZ (- z) else ofZ z
        | None => nan
        end
      else nan
  end.

Definition msPerDay : Z := 86400000.

(** The calendar year of a day count since 1970-01-01. *)
Definition yearOfDay (day : Z) : Z :=
  let z := (day + 719468)%Z in
  let era := (z / 146097)%Z in
  let doe := (z - era * 146097)%Z in
  let yoe := ((doe - doe / 1460 + doe / 36524 - doe / 146096) / 365)%Z in
  let doy := (doe - (365 * yoe + yoe / 4 - yoe / 100))%Z in
  let mp := ((5 * doy + 2) / 153)%Z in
  let month := (if (mp <? 10)%Z then mp + 3 else mp - 9)%Z in
  (yoe + era * 400 + (if (month <=? 2)%Z then 1 else 0))%Z.

Definition DateFullYear (t : float) : float :=
  match floorZ t with
  | Some ms => ofZ (yearOfDay (ms / msPerDay))
  | None => nan
  end.

Definition DateToLocaleString (t : float) : string :=
  match floorZ t with
  | Some ms => "@" ++ decimal ms
  | None => "Invalid Date"
  end.

(** Sunday 00:00:00.000 of the week of [now]; 1970-01-01 was a Thursday. *)
Definition startOfWeek (now : float) : float :=
  match floorZ now with
  | Some ms =>
      let day := (ms / msPerDay)%Z in
      ofZ ((day - (day + 4) mod 7) * msPerDay)
  | None => nan
  end.

(** Saturday 23:59:59.999 of the week that starts at [first]. *)
Definition endOfWeek (first : float) : float :=
  match floorZ first with
  | Some ms => ofZ ((ms / msPerDay + 6) * msPerDay + (msPerDay - 1))
  | None => nan
  end.

(** Thousands separators for a decimal numeral. *)
Fixpoint grouped (digits : list ascii) (ahead : nat) : string :=
  match digits with
  | [] => ""
  | c :: rest =>
      String c
        (match ahead with
         | O => grouped rest ahead
         | S k =>
             if (0 <? k)%nat && (k mod 3 =? 0)%nat
             then "," ++ grouped rest k else grouped rest k
         end)
  end.

(** The en-US currency format of a finite amount: cents rounded half away
    from zero on the double's exact value. *)
Definition NumberFormatUSD (v : value) : string :=
  let x := JS.ToNumber StringToNumber v in
  match Prim2SF x with
  | S754_nan => "$NaN"
  | S754_infinity sgn => if sgn then "-$Infinity" else "$Infinity"
  | S754_zero sgn => if sgn then "-$0.00" else "$0.00"
  | S754_finite sgn m e =>
      let cents :=
        (if (0 <=? e)%Z then Z.pos m * 2 ^ e * 100
         else (2 * (Z.pos m * 100) + 2 ^ (- e)) / (2 * 2 ^ (- e)))%Z in
      let dollars := String.list_ascii_of_string (decimal (cents / 100)) in
      let rest := decimal (cents mod 100) in
      (if sgn then "-$" else "$")
      ++ grouped dollars (length dollars) ++ "."
      ++ (if (cents mod 100 <? 10)%Z then "0" ++ rest else rest)
  end.

(** A stable insertion sort: [x] moves behind [y] when the comparator is
    positive on them. *)
Fixpoint insertBy {A : Type} (cmp : A -> A -> float) (x : A) (l : list A)
    : list A :=
  match l with
  | [] => [x]
  | y :: l' =>
      if (0 <? cmp x y)%float then y :: insertBy cmp x l' else x :: l
  end.

Definition arraySort {A : Type} (cmp : A -> A -> float) (l : list A) : list A :=
  foldr (insertBy cmp) [] l.

End UTC.

(** ** Turns of the event loop *)

(** The turns of the event loop in which the module touches its state: a
    settled gateway call resumes the function that awaited it, a timer tick
    starts a poll, and an edit runs a listener. *)
Inductive action : Type :=
| ExecuteClicked (orderId : value)
| ExecuteSettled (now : float) (orderId : value) (resp : outcome executeResult)
| CancelClicked (orderId : value)
| CancelSettled (now : float) (orderId : value) (resp : outcome cancelResult)
| PollTick
| StatusSettled (now : float) (resp : outcome (option statusResult))
| ReloadSettled (now : float) (resp : outcome (option (list order)))
| QuantityEdited (orderId : value) (typed : string)
| QuantitySettled (quantity : float) (resp : outcome httpResponse).

(** ** Sample data *)

(** A page with both tables, no order and no timer. *)
Definition freshPage : State :=
  {| pendingOrdersData := []; filledOrdersData := [];
     autoRefreshTimer := None; intervals := []; nextHandle := 1%positive;
     pendingTable := true; filledTable := true;
     weeklySummary := {| weekly_earnings_total := "$0.00";
                         weekly_order_count := 0;
                         weekly_average_premium := "$0.00" |};
     trace := [] |}.

Definition withPending (orders : list order) : State :=
  setPending orders freshPage.

(** The sample clock: Sunday 2 November 2025, 16:13:20 UTC. *)
Definition sampleNow : float := 1762100000000%float.

(** An order with an identifier and a status. *)
Definition sampleOrder (id : Z) (st : string) : order :=
  <["id" := Num (UTC.ofZ id)]> (<["status" := Str st]> ∅).

(** An executed order filed an hour before [sampleNow]. *)
Definition sampleFilled (id : Z) (fillPrice quantity commission : float)
    : order :=
  <["timestamp" := Num 1762096400000]>
    (<["commission" := Num commission]>
       (<["quantity" := Num quantity]>
          (<["avg_fill_price" := Num fillPrice]> (sampleOrder id "executed")))).

Definition firstFill : order := sampleFilled 1 2.50 1 0.65.
Definition secondFill : order := sampleFilled 2 1.10 2 0.65.

(** A processing order and a status answer whose fragment puts it back. *)
Definition processingPage : State := withPending [sampleOrder 42 "processing"].

Definition revivingAnswer : outcome (option statusResult) :=
  Resolved (Some {| success := Bool true;
                    updated_orders := Some [sampleOrder 42 "pending"] |}).

(** A run that executes order 42 and polls until the gateway reports it
    executed. *)
Definition executedAnswer : outcome (option statusResult) :=
  Resolved (Some {| success := Bool true;
                    updated_orders := Some [sampleOrder 42 "executed"] |}).

Definition sampleRun : list action :=
  [ ExecuteClicked (Str "42");
    ExecuteSettled sampleNow (Str "42")
      (Resolved {| ib_order_id := Num 9001; execution_details := None |});
    PollTick;
    StatusSettled sampleNow executedAnswer;
    ReloadSettled sampleNow (Resolved (Some [])) ].

(** Order 7, pending, with three contracts. *)
Definition sevenPage : State :=
  withPending [<["quantity" := Num 3]> (sampleOrder 7 "pending")].

(** An executed order with a fill price and no creation time. *)
Definition undatedFill : order :=
  <["avg_fill_price" := Num 2.50]> (sampleOrder 3 "executed").

(** The gateway's answer to a cancel that is still pending. *)
Definition pendingCancel : cancelResult := {| ib_status := Str "PendingCancel" |}.

(** The three turns of a poll that finds order 42 executed. *)
Definition pollRun : list action :=
  [ PollTick;
    StatusSettled sampleNow executedAnswer;
    ReloadSettled sampleNow (Resolved (Some [])) ].

(** A run without an accepted execute or cancel: a click, a rejected
    execute, a poll and an edit. *)
Definition quietRun : list action :=
  [ ExecuteClicked (Str "42");
    ExecuteSettled sampleNow (Str "42") (Rejected (Str "Gateway timeout"));
    PollTick;
    QuantityEdited (Str "7") "5" ].

(** A store with a pending order and one in flight. *)
Definition twoOrdersPage : State :=
  withPending [sampleOrder 7 "pending"; sampleOrder 42 "processing"].

(** A run on it: order 7 is executed, then a poll finds order 42
    executed. *)
Definition trackedRun : list action :=
  [ ExecuteClicked (Str "7");
    ExecuteSettled sampleNow (Str "7")
      (Resolved {| ib_order_id := Num 9002; execution_details := None |});
    PollTick;
    StatusSettled sampleNow executedAnswer;
    ReloadSettled sampleNow (Resolved (Some [])) ].

(** ** The order module proper *)

Section Dashboard.

(** The host: the language runtime and the browser.  [DateValue v] is the
    time value of [new Date(v)] (NaN for an invalid date);
    [DateFullYear] and [DateToLocaleString] are [getFullYear] and
    [toLocaleString] on a time value; [startOfWeek now] is the time value
    after [setDate(getDate() - getDay()); setHours(0,0,0,0)] and
    [endOfWeek first] the one after [setDate(getDate() + 6);
    setHours(23,59,59,999)], both in local time; [NumberFormatUSD] is
    [Intl.NumberFormat('en-US', {style:'currency', currency:'USD'}).format];
    [arraySort] is [Array.prototype.sort] with a comparator. *)
Variable StringToNumber : string -> float.
Variable NumberToString : float -> string.
Variable DateValue : value -> float.
Variable DateFullYear : float -> float.
Variable DateToLocaleString : float -> string.
Variable startOfWeek : float -> float.
Variable endOfWeek : float -> float.
Variable NumberFormatUSD : value -> string.
Variable arraySort : (order -> order -> float) -> list order -> list order.

(** Whatever the comparator, sorting rearranges the array and nothing
    else. *)
Hypothesis arraySort_Permutation :
  forall cmp l, Permutation (arraySort cmp l) l.

Local Abbreviation ToNumber := (JS.ToNumber StringToNumber).
Local Abbreviation ToString := (JS.ToString NumberToString).
Local Abbreviation parseInt := (JS.parseInt NumberToString).
Local Abbreviation looseEq := (JS.looseEq StringToNumber).

(** [formatCurrency] of account.js. *)
Definition formatCurrency (v : value) : string :=
  match v with
  | Null | Undefined => "$0.00"
  | _ => NumberFormatUSD v
  end.

(** [formatDate].  The [timestamp] it computes on the Unix-timestamp
    branch: the parsed integer, taken as seconds when the input prints in
    at most ten characters ([String.length] counts the same characters as
    [.length] on ASCII text). *)
Definition resolvedTimestamp (dateString : value) : float :=
  (parseInt false dateString
   * (if (String.length (ToString dateString) <=? 10)%nat
      then 1000 else 1))%float.

(** The guard of that branch: [typeof dateString === 'number' ||
    !isNaN(parseInt(dateString))]. *)
Definition isUnixTimestamp (dateString : value) : bool :=
  isNumber dateString || negb (PrimFloat.is_nan (parseInt false dateString)).

(** The function itself; the empty string is its "no date". *)
Definition formatDate (dateString : value) : string :=
  if negb (truthy dateString) then ""
  else if isUnixTimestamp dateString then
    let timestamp := resolvedTimestamp dateString in
    if (timestamp <? 86400000)%float then ""
    else DateToLocaleString (DateValue (Num timestamp))
  else
    let date := DateValue dateString in
    if PrimFloat.is_nan date || (DateFullYear date =? 1970)%float then ""
    else DateToLocaleString date.

(** [isWithinCurrentWeek], with the clock reading [now] of [new Date()]. *)
Definition isWithinCurrentWeek (now : float) (date : value) : bool :=
  if negb (truthy date) then false
  else
    let dateObj := DateValue date in
    if PrimFloat.is_nan dateObj then false
    else
      let firstDayOfWeek := startOfWeek now in
      let lastDayOfWeek := endOfWeek firstDayOfWeek in
      (firstDayOfWeek <=? dateObj)%float && (dateObj <=? lastDayOfWeek)%float.

(** The creation time an order is filed under: [o.timestamp || o.created_at]. *)
Definition createdAt (o : order) : value :=
  or (get o "timestamp") (get o "created_at").

(** *** The weekly earnings summary *)

(** [netPremium] of one row of the filled-orders table. *)
Definition netPremium (o : order) : float :=
  let quantity := or (get o "quantity") (Num 1) in
  let fillPrice :=
    or (get o "avg_fill_price") (or (get o "premium") (Num 0)) in
  let commission := or (get o "commission") (Num 0) in
  (ToNumber fillPrice * 100 * ToNumber quantity - ToNumber commission)%float.

(** The [weeklyOrders] filter. *)
Definition weeklyOrders (now : float) (filled : list order) : list order :=
  List.filter
    (fun o => strictEq (get o "status") (Str "executed")
              && isWithinCurrentWeek now (createdAt o))
    filled.

(** The [totalEarnings] accumulated by the [forEach] over the rows. *)
Definition totalEarnings (now : float) (filled : list order) : float :=
  fold_left
    (fun total o =>
       if isWithinCurrentWeek now (createdAt o)
       then (total + netPremium o)%float else total)
    filled 0%float.

(** [averagePremium] of [updateWeeklyEarningsSummary]. *)
Definition averagePremium (orderCount : nat) (total : float) : float :=
  if (0 <? orderCount)%nat then (total / ofN (N.of_nat orderCount))%float
  else 0%float.

(** [updateWeeklyEarningsSummary]. *)
Definition updateWeeklyEarningsSummary
    (weekly : list order) (total : float) (s : State) : State :=
  let orderCount := length weekly in
  setSummary
    {| weekly_earnings_total := formatCurrency (Num total);
       weekly_order_count := orderCount;
       weekly_average_premium :=
         formatCurrency (Num (averagePremium orderCount total)) |}
    s.

(** [updateFilledOrdersTable]: nothing happens without the table, and an
    empty collection returns before the summary is reached. *)
Definition updateFilledOrdersTable (now : float) (s : State) : State :=
  if negb (filledTable s) then s
  else
    match filledOrdersData s with
    | [] => s
    | _ :: _ =>
        updateWeeklyEarningsSummary
          (weeklyOrders now (filledOrdersData s))
          (totalEarnings now (filledOrdersData s)) s
    end.

(** *** The pending-orders table *)

(** The comparator of the newest-first sort. *)
Definition newestFirst (a b : order) : float :=
  match createdAt a, createdAt b with
  | Num timestampA, Num timestampB => (timestampB - timestampA)%float
  | timestampA, timestampB =>
      (DateValue timestampB - DateValue timestampA)%float
  end.

(** [updatePendingOrdersTable]: sorts [pendingOrdersData] in place, then
    refreshes the filled-orders table. *)
Definition updatePendingOrdersTable (now : float) (s : State) : State :=
  if negb (pendingTable s) then s
  else
    match pendingOrdersData s with
    | [] => s
    | _ :: _ =>
        updateFilledOrdersTable now
          (setPending (arraySort newestFirst (pendingOrdersData s)) s)
    end.

(** *** Execute and cancel *)

(** The assignments [executeOrderById] makes to the order it found. *)
Definition markProcessing (result : executeResult) (o : order) : order :=
  let o1 := <["executed" := Bool true]> (<["status" := Str "processing"]> o) in
  match execution_details result with
  | Some details =>
      <["avg_fill_price" := get details "avg_fill_price"]>
        (<["remaining" := get details "remaining"]>
           (<["filled" := get details "filled"]>
              (<["ib_status" := get details "ib_status"]>
                 (<["ib_order_id" := get details "ib_order_id"]> o1))))
  | None =>
      <["ib_status" := Str "Submitted"]>
        (<["ib_order_id" := or (ib_order_id result) (Str "Unknown")]> o1)
  end.

(** [executeOrderById] up to its [await]: the request leaves. *)
Definition executeOrderById_call (orderId : value) (s : State) : State :=
  emit (Request (ReqExecuteOrder orderId)) s.

(** [executeOrderById] from its [await] on, once the gateway has settled. *)
Definition executeOrderById_settle
    (now : float) (orderId : value) (resp : outcome executeResult)
    (s : State) : State :=
  match resp with
  | Resolved result =>
      let s1 :=
        match findIndex (fun o => looseEq (get o "id") orderId)
                        (pendingOrdersData s) with
        | Some orderIndex =>
            updatePendingOrdersTable now
              (setPending
                 (alter (markProcessing result) orderIndex
                        (pendingOrdersData s)) s)
        | None => s
        end in
      startAutoRefresh
        (emit (Alert "success" (OrderSent (ib_order_id result))) s1)
  | Rejected message => emit (Alert "danger" (ExecuteError message)) s
  end.

Definition executeOrderById
    (now : float) (orderId : value) (resp : outcome executeResult)
    (s : State) : State :=
  executeOrderById_settle now orderId resp (executeOrderById_call orderId s).

(** The assignments [cancelOrderById] makes to the order it found. *)
Definition markCanceled (result : cancelResult) (o : order) : order :=
  let o1 :=
    <["status" := if strictEq (ib_status result) (Str "PendingCancel")
                  then Str "canceling" else Str "canceled"]> o in
  if truthy (ib_status result)
  then <["ib_status" := ib_status result]> o1 else o1.

Definition cancelOrderById_call (orderId : value) (s : State) : State :=
  emit (Request (ReqCancelOrder orderId)) s.

Definition cancelOrderById_settle
    (now : float) (orderId : value) (resp : outcome cancelResult)
    (s : State) : State :=
  match resp with
  | Resolved result =>
      let s1 :=
        match findIndex (fun o => looseEq (get o "id") orderId)
                        (pendingOrdersData s) with
        | Some orderIndex =>
            updatePendingOrdersTable now
              (setPending
                 (alter (markCanceled result) orderIndex
                        (pendingOrdersData s)) s)
        | None => s
        end in
      startAutoRefresh (emit (Alert "success" CancelRequested) s1)
  | Rejected message => emit (Alert "danger" (CancelError message)) s
  end.

Definition cancelOrderById
    (now : float) (orderId : value) (resp : outcome cancelResult)
    (s : State) : State :=
  cancelOrderById_settle now orderId resp (cancelOrderById_call orderId s).

(** *** Loading *)

Definition loadFilledOrders_call (s : State) : State :=
  emit (Request (ReqFetchPendingOrders true)) s.

(** [loadFilledOrders] once the fetch has settled; [None] is an answer
    without [orders]. *)
Definition loadFilledOrders_settle
    (now : float) (resp : outcome (option (list order))) (s : State) : State :=
  match resp with
  | Resolved (Some orders) =>
      updateFilledOrdersTable now
        (setFilled
           (List.filter
              (fun o => strictEq (get o "status") (Str "executed")
                        && truthy (get o "avg_fill_price"))
              orders) s)
  | Resolved None => s
  | Rejected _ => emit (Alert "danger" LoadFilledError) s
  end.

Definition loadFilledOrders
    (now : float) (resp : outcome (option (list order))) (s : State) : State :=
  loadFilledOrders_settle now resp (loadFilledOrders_call s).

Definition loadPendingOrders_call (s : State) : State :=
  emit (Request (ReqFetchPendingOrders false)) s.

(** [loadPendingOrders]: the pending fetch settles, then the filled one. *)
Definition loadPendingOrders
    (now : float) (pending filled : outcome (option (list order)))
    (s : State) : State :=
  let s0 := loadPendingOrders_call s in
  match pending with
  | Resolved answer =>
      let s1 :=
        match answer with
        | Some orders => updatePendingOrdersTable now (setPending orders s0)
        | None => s0
        end in
      loadFilledOrders now filled s1
  | Rejected _ => emit (Alert "danger" LoadPendingError) s0
  end.

(** *** The status poll *)

(** One turn of the [forEach] over [result.updated_orders]: the store and
    the [orderWasExecuted] flag before and after [updatedOrder].  The spread
    [{...current, ...updatedOrder}] is the union that prefers the fragment. *)
Definition mergeUpdate
    (acc : list order * bool) (updatedOrder : order) : list order * bool :=
  let '(orders, orderWasExecuted) := acc in
  match findIndex (fun o => looseEq (get o "id") (get updatedOrder "id"))
                  orders with
  | Some orderIndex =>
      match orders !! orderIndex with
      | Some current =>
          (<[orderIndex := updatedOrder ∪ current]> orders,
           orderWasExecuted
           || (negb (strictEq (get current "status") (Str "executed"))
               && strictEq (get updatedOrder "status") (Str "executed")))
      | None => acc
      end
  | None => acc
  end.

Definition mergeUpdates
    (updated : list order) (orders : list order) : list order * bool :=
  fold_left mergeUpdate updated (orders, false).

(** [checkOrdersStatus] up to its first [await]: the request leaves only
    when some order is processing or canceling; otherwise the timer stops. *)
Definition checkOrdersStatus_call (s : State) : State :=
  if hasTransient (pendingOrdersData s)
  then emit (Request ReqCheckOrderStatus) s
  else stopAutoRefresh s.

(** The last statement of the merge branch. *)
Definition checkOrdersStatus_finish (s : State) : State :=
  if hasTransient (pendingOrdersData s) then s else stopAutoRefresh s.

(** [checkOrdersStatus] once the status check has settled ([None] is a null
    answer).  The flag tells that the function is now awaiting
    [loadFilledOrders]. *)
Definition checkOrdersStatus_settle
    (now : float) (resp : outcome (option statusResult)) (s : State)
    : State * bool :=
  match resp with
  | Resolved (Some result) =>
      if truthy (success result) then
        match updated_orders result with
        | Some ((_ :: _) as updated) =>
            let '(orders, orderWasExecuted) :=
              mergeUpdates updated (pendingOrdersData s) in
            let s1 := updatePendingOrdersTable now (setPending orders s) in
            if orderWasExecuted then (loadFilledOrders_call s1, true)
            else (checkOrdersStatus_finish s1, false)
        | _ => (s, false)
        end
      else (s, false)
  | _ => (s, false)
  end.

(** [checkOrdersStatus] once the reload it awaited has settled. *)
Definition checkOrdersStatus_reloaded
    (now : float) (filled : outcome (option (list order))) (s : State)
    : State :=
  checkOrdersStatus_finish (loadFilledOrders_settle now filled s).

(** [checkOrdersStatus] run without anything else in between. *)
Definition checkOrdersStatus
    (now : float) (status : outcome (option statusResult))
    (filled : outcome (option (list order))) (s : State) : State :=
  if hasTransient (pendingOrdersData s) then
    let '(s1, reloading) :=
      checkOrdersStatus_settle now status (checkOrdersStatus_call s) in
    if reloading then checkOrdersStatus_reloaded now filled s1 else s1
  else checkOrdersStatus_call s.

(** *** Editing a quantity *)

(** [updateOrderQuantity] up to its [await]: the order is looked up with
    [===] against [parseInt(orderId, 10)], its quantity is overwritten and
    the PUT leaves. *)
Definition updateOrderQuantity_call
    (orderId : value) (quantity : float) (s : State) : State :=
  match findIndex (fun o => strictEq (get o "id") (Num (parseInt true orderId)))
                  (pendingOrdersData s) with
  | Some orderIndex =>
      emit (Request (ReqPutQuantity orderId quantity))
           (setPending
              (alter (fun o => <["quantity" := Num quantity]> o) orderIndex
                     (pendingOrdersData s)) s)
  | None => s
  end.

(** [updateOrderQuantity] once the PUT has settled. *)
Definition updateOrderQuantity_settle
    (quantity : float) (resp : outcome httpResponse) (s : State) : State :=
  match resp with
  | Resolved response =>
      match body response with
      | Resolved _ =>
          if ok response
          then emit (Alert "success" (QuantityUpdated quantity)) s
          else emit (Alert "danger" (QuantityFailed (statusText response))) s
      | Rejected message => emit (Alert "danger" (QuantityError message)) s
      end
  | Rejected message => emit (Alert "danger" (QuantityError message)) s
  end.

(** Is the typed quantity accepted?  [orderId && !isNaN(newQuantity) &&
    newQuantity > 0]. *)
Definition quantityAccepted (orderId : value) (newQuantity : float) : bool :=
  truthy orderId && negb (PrimFloat.is_nan newQuantity)
  && (0 <? newQuantity)%float.

(** The [change] and [blur] listeners of a quantity input, which share
    their body.  [orderId] is [dataset.orderId] and [typed] the input's
    value; the result is the new state and the value the listener assigns
    to the input, if it assigns one. *)
Definition onQuantityInput
    (orderId : value) (typed : string) (s : State) : State * option value :=
  let newQuantity := parseIntString true typed in
  if quantityAccepted orderId newQuantity
  then (updateOrderQuantity_call orderId newQuantity s, None)
  else
    match findFirst
            (fun o => strictEq (get o "id") (Num (parseInt true orderId)))
            (pendingOrdersData s) with
    | Some o => (s, Some (or (get o "quantity") (Num 1)))
    | None => (s, None)
    end.

(** *** Runs *)

Definition perform (a : action) (s : State) : State :=
  match a with
  | ExecuteClicked orderId => executeOrderById_call orderId s
  | ExecuteSettled now orderId resp => executeOrderById_settle now orderId resp s
  | CancelClicked orderId => cancelOrderById_call orderId s
  | CancelSettled now orderId resp => cancelOrderById_settle now orderId resp s
  | PollTick => checkOrdersStatus_call s
  | StatusSettled now resp => fst (checkOrdersStatus_settle now resp s)
  | ReloadSettled now resp => checkOrdersStatus_reloaded now resp s
  | QuantityEdited orderId typed => fst (onQuantityInput orderId typed s)
  | QuantitySettled quantity resp => updateOrderQuantity_settle quantity resp s
  end.

Definition run (actions : list action) (s : State) : State :=
  fold_left (fun st a => perform a st) actions s.

(** [updateOrderQuantity], run without anything else in between. *)
Definition updateOrderQuantity
    (orderId : value) (quantity : float) (resp : outcome httpResponse)
    (s : State) : State :=
  match findIndex (fun o => strictEq (get o "id") (Num (parseInt true orderId)))
                  (pendingOrdersData s) with
  | Some _ =>
      updateOrderQuantity_settle quantity resp
        (updateOrderQuantity_call orderId quantity s)
  | None => updateOrderQuantity_call orderId quantity s
  end.

(** [loadPendingOrders] from its first [await] on. *)
Definition loadPendingOrders_settle
    (now : float) (pending filled : outcome (option (list order)))
    (s : State) : State :=
  match pending with
  | Resolved answer =>
      let s1 :=
        match answer with
        | Some orders => updatePendingOrdersTable now (setPending orders s)
        | None => s
        end in
      loadFilledOrders now filled s1
  | Rejected _ => emit (Alert "danger" LoadPendingError) s
  end.

(** The [DOMContentLoaded] listener: [loadPendingOrders()] runs up to its
    first [await], the test on [pendingOrdersData] follows at once, and
    the load goes on when the fetches settle. *)
Definition onDOMContentLoaded
    (now : float) (pending filled : outcome (option (list order)))
    (s : State) : State :=
  let s0 := loadPendingOrders_call s in
  let s1 :=
    if hasTransient (pendingOrdersData s0) then startAutoRefresh s0 else s0 in
  loadPendingOrders_settle now pending filled s1.

Local Open Scope list_scope.

(** *** The vocabulary of the properties *)

(** The browser runs exactly the timer the module holds a handle of. *)
Definition singleTimer (s : State) : Prop :=
  intervals s = match autoRefreshTimer s with Some h => [h] | None => [] end.

(** [o.status]. *)
Definition status (o : order) : value := get o "status".

(** The two statuses the poll waits on. *)
Definition inFlight (o : order) : Prop :=
  status o = Str "processing" \/ status o = Str "canceling".

(** The four statuses the poll does not wait on. *)
Definition atRest (o : order) : Prop :=
  status o = Str "pending" \/ status o = Str "executed"
  \/ status o = Str "canceled" \/ status o = Str "rejected".

(** The data model's [status] domain. *)
Definition knownStatus (o : order) : Prop := inFlight o \/ atRest o.

(** [s'] has the timer and the intervals of [s]. *)
Definition sameTimers (s s' : State) : Prop :=
  autoRefreshTimer s' = autoRefreshTimer s /\ intervals s' = intervals s.

(** Going from [s] to [s'] keeps the handle and the running timers in
    step. *)
Definition keepsStep (s s' : State) : Prop := singleTimer s -> singleTimer s'.

Definition isExecuteRequest (e : event) : bool :=
  match e with Request (ReqExecuteOrder _) => true | _ => false end.

(** The execute requests sent so far. *)
Definition executeRequests (t : list event) : list event :=
  List.filter isExecuteRequest t.

Definition isExecuteClick (a : action) : bool :=
  match a with ExecuteClicked _ => true | _ => false end.

(** [s'] has the trace of [s] followed by events that are not execute
    requests. *)
Definition quietSince (s s' : State) : Prop :=
  exists evs, trace s' = trace s ++ evs /\ executeRequests evs = [].

(** The store after one fragment has been merged into it. *)
Definition merged (updatedOrder : order) (orders : list order) : list order :=
  fst (mergeUpdate (orders, false) updatedOrder).

(** [o'] is [o] later on and has not come back to pending: if it is
    pending now, it was pending before. *)
Definition notRevived (o o' : order) : Prop :=
  status o' = Str "pending" -> status o = Str "pending".

(** [l'] holds the orders of [l], each one moved on by [R], in some
    order (the table's sort rearranges the store). *)
Definition followed (R : order -> order -> Prop) (l l' : list order) : Prop :=
  exists m, Forall2 R l m /\ Permutation m l'.

(** [o.id]. *)
Definition idOf (o : order) : value := get o "id".

(** [o'] is the order [o] later on: it has kept its identifier, and it has
    not come back to pending. *)
Definition sameOrderNotRevived (o o' : order) : Prop :=
  idOf o' = idOf o /\ notRevived o o'.

(** The identifiers of the fragments a turn merges into the store. *)
Definition fragmentIds (a : action) : list value :=
  match a with
  | StatusSettled _ (Resolved (Some result)) =>
      match updated_orders result with
      | Some updated => List.map idOf updated
      | None => []
      end
  | _ => []
  end.

(** Among these identifiers [==] holds only between an identifier and
    itself: none is matched by another one through a coercion (as 42 and
    "42" would be). *)
Definition exactIds (ids : list value) : Prop :=
  forall a b, In a ids -> In b ids -> looseEq a b = true -> a = b.

(** The fragment does not say [pending]. *)
Definition keepsOffPending (updatedOrder : order) : Prop :=
  get updatedOrder "status" <> Str "pending".

(** Does the fragment say [pending]? *)
Definition fragmentSaysPending (updatedOrder : order) : bool :=
  match get updatedOrder "status" with
  | Str st => (st =? "pending")%string
  | _ => false
  end.

(** Is the turn a status answer with a fragment that says [pending]? *)
Definition saysPending (a : action) : bool :=
  match a with
  | StatusSettled _ (Resolved (Some result)) =>
      match updated_orders result with
      | Some updated => existsb fragmentSaysPending updated
      | None => false
      end
  | _ => false
  end.

(** What the listener shows for an order: [order.quantity || 1]. *)
Definition shownQuantity (o : order) : value := or (get o "quantity") (Num 1).

(** Two amounts that agree to the cent. *)
Definition sameCents (x y : float) : bool :=
  (PrimFloat.abs (x - y) <? 0.005)%float.

(** An executed order of the current week with the given fill price,
    quantity and commission. *)
Definition filledThisWeek
    (now : float) (o : order) (fillPrice quantity commission : float) : Prop :=
  get o "status" = Str "executed"
  /\ get o "avg_fill_price" = Num fillPrice
  /\ get o "quantity" = Num quantity
  /\ get o "commission" = Num commission
  /\ isWithinCurrentWeek now (createdAt o) = true.

(** *** Further vocabulary *)

(** What [loadFilledOrders] lets through: executed, with a fill price. *)
Definition filledOrder (o : order) : Prop :=
  get o "status" = Str "executed" /\ truthy (get o "avg_fill_price") = true.

(** The orders the total is summed over: those of the current week,
    whatever their status. *)
Definition summedOrders (now : float) (filled : list order) : list order :=
  List.filter (fun o => isWithinCurrentWeek now (createdAt o)) filled.

(** The sum of the net premiums of [l], added up from the left. *)
Definition premiumSum (l : list order) : float :=
  fold_left (fun total o => (total + netPremium o)%float) l 0%float.

(** Does the status answer bring nothing to merge?  A rejection, a null
    answer, a falsy [success], and missing or empty [updated_orders]. *)
Definition withoutNews (resp : outcome (option statusResult)) : bool :=
  match resp with
  | Resolved (Some result) =>
      negb (truthy (success result))
      || match updated_orders result with
         | Some (_ :: _) => false
         | _ => true
         end
  | _ => true
  end.

(** The events a turn can add to the trace. *)
Definition mayEmit (a : action) (e : event) : Prop :=
  match a with
  | ExecuteClicked orderId => e = Request (ReqExecuteOrder orderId)
  | ExecuteSettled _ _ (Resolved result) =>
      e = Alert "success" (OrderSent (ib_order_id result))
  | ExecuteSettled _ _ (Rejected message) =>
      e = Alert "danger" (ExecuteError message)
  | CancelClicked orderId => e = Request (ReqCancelOrder orderId)
  | CancelSettled _ _ (Resolved _) => e = Alert "success" CancelRequested
  | CancelSettled _ _ (Rejected message) =>
      e = Alert "danger" (CancelError message)
  | PollTick => e = Request ReqCheckOrderStatus
  | StatusSettled _ _ => e = Request (ReqFetchPendingOrders true)
  | ReloadSettled _ _ => e = Alert "danger" LoadFilledError
  | QuantityEdited orderId typed =>
      e = Request (ReqPutQuantity orderId (parseIntString true typed))
      /\ (0 <? parseIntString true typed)%float = true
  | QuantitySettled quantity _ =>
      exists level n, e = Alert level n
  end.

(** A quantity request carries a quantity above zero. *)
Definition positivePut (e : event) : Prop :=
  match e with
  | Request (ReqPutQuantity _ quantity) => (0 <? quantity)%float = true
  | _ => True
  end.

(** The turns of the background poll. *)
Definition pollTurn (a : action) : bool :=
  match a with
  | PollTick | StatusSettled _ _ | ReloadSettled _ _ => true
  | _ => false
  end.

(** What the background poll may do to the outside: check statuses, fetch
    the filled orders, and alert that this fetch failed. *)
Definition pollEvent (e : event) : Prop :=
  e = Request ReqCheckOrderStatus
  \/ e = Request (ReqFetchPendingOrders true)
  \/ e = Alert "danger" LoadFilledError.

(** A decimal digit. *)
Definition decimalDigit (c : ascii) : bool :=
  ((48 <=? N_of_ascii c) && (N_of_ascii c <=? 57))%N.

(** A year of at most four digits is a small number of seconds, and of
    milliseconds: its double is a number, and both products stay under a
    day. *)
Definition lowYear (n : N) : bool :=
  negb (PrimFloat.is_nan (ofN n))
  && (ofN n * 1000 <? 86400000)%float
  && (ofN n * 1 <? 86400000)%float.

(** The fields [executeOrderById] copies from [execution_details]. *)
Definition ibFields : list string :=
  ["ib_order_id"; "ib_status"; "filled"; "remaining"; "avg_fill_price"].

(** What an order looks like once an execute has marked it, given what it
    was: [processing] and [executed]; with [execution_details] the five
    gateway fields are the details' (undefined where the details lack
    one), without them the identifier falls back to the answer's or to
    [Unknown] and the gateway status is [Submitted]; the rest is as it
    was. *)
Definition markedProcessing (result : executeResult) (o o' : order) : Prop :=
  status o' = Str "processing"
  /\ get o' "executed" = Bool true
  /\ match execution_details result with
     | Some details =>
         (forall k, In k ibFields -> get o' k = get details k)
         /\ (forall k, k <> "status" -> k <> "executed" -> ~ In k ibFields ->
             get o' k = get o k)
     | None =>
         get o' "ib_order_id" = or (ib_order_id result) (Str "Unknown")
         /\ get o' "ib_status" = Str "Submitted"
         /\ (forall k, k <> "status" -> k <> "executed" ->
             k <> "ib_order_id" -> k <> "ib_status" -> get o' k = get o k)
     end.

(** Is the turn an execute or a cancel that the gateway accepted? *)
Definition acceptedRequest (a : action) : bool :=
  match a with
  | ExecuteSettled _ _ (Resolved _) | CancelSettled _ _ (Resolved _) => true
  | _ => false
  end.

(** ** Properties *)

(** *** The scheduler *)

Lemma clearInterval_one (h : positive) : clearInterval h [h] = [].
Proof. unfold clearInterval; simpl. now rewrite Pos.eqb_refl. Qed.

Lemma singleTimer_start (s : State) :
  singleTimer s -> singleTimer (startAutoRefresh s).
Proof.
  unfold singleTimer, startAutoRefresh.
  destruct (autoRefreshTimer s) eqn:E; simpl; intros H.
  - now rewrite E.
  - now rewrite H.
Qed.

Lemma singleTimer_stop (s : State) :
  singleTimer s -> singleTimer (stopAutoRefresh s).
Proof.
  unfold singleTimer, stopAutoRefresh.
  destruct (autoRefreshTimer s) eqn:E; simpl; intros H.
  - rewrite H. apply clearInterval_one.
  - now rewrite E.
Qed.

Lemma scheduler_single_timer_stop (s : State) :
  singleTimer s -> intervals (stopAutoRefresh s) = [].
Proof.
  unfold singleTimer, stopAutoRefresh.
  destruct (autoRefreshTimer s); simpl; intros H; rewrite H;
    [apply clearInterval_one | reflexivity].
Qed.

(** *** Transient orders *)

Lemma isTransient_inFlight (o : order) : isTransient o = true <-> inFlight o.
Proof.
  unfold isTransient, inFlight, status.
  destruct (get o "status") as [| |b|x|st]; try (split; [discriminate | intros [H|H]; discriminate]).
  rewrite orb_true_iff, !String.eqb_eq.
  split; intros [H|H]; [left|right|left|right]; congruence.
Qed.

Lemma atRest_not_inFlight (o : order) : atRest o -> ~ inFlight o.
Proof.
  unfold atRest, inFlight.
  intros [H|[H|[H|H]]] [K|K]; rewrite H in K; discriminate.
Qed.

(** C6: [hasTransient] answers true exactly when some order is processing
    or canceling; on a store whose statuses are the six of the data model,
    it answers false exactly when every order is pending, executed,
    canceled or rejected. *)
Theorem hasTransient_iff (orders : list order) :
  (hasTransient orders = true <-> Exists inFlight orders)
  /\ (Forall knownStatus orders ->
      (hasTransient orders = false <-> Forall atRest orders)).
Proof.
  assert (Htrue : hasTransient orders = true <-> Exists inFlight orders).
  { unfold hasTransient. rewrite existsb_exists, Exists_exists.
    split; intros (o & Hin & Ho); exists o; split;
      try apply isTransient_inFlight; auto;
      try (apply list_elem_of_In; assumption). }
  split; [exact Htrue|].
  intros Hknown. split.
  - intros Hfalse.
    rewrite Forall_forall in Hknown |- *.
    intros o Hin. destruct (Hknown o Hin) as [Hfly|Hrest]; [|exact Hrest].
    exfalso.
    assert (hasTransient orders = true) as Ht.
    { apply Htrue, Exists_exists. exists o. auto. }
    congruence.
  - intros Hrest.
    destruct (hasTransient orders) eqn:E; [|reflexivity].
    exfalso. destruct (proj1 (Exists_exists _ _) (proj1 Htrue eq_refl))
      as (o & Hin & Ho).
    rewrite Forall_forall in Hrest.
    exact (atRest_not_inFlight o (Hrest o Hin) Ho).
Qed.

(** *** What each function leaves alone *)

Lemma updateFilledOrdersTable_frame (now : float) (s : State) :
  let s' := updateFilledOrdersTable now s in
  pendingOrdersData s' = pendingOrdersData s
  /\ filledOrdersData s' = filledOrdersData s
  /\ autoRefreshTimer s' = autoRefreshTimer s
  /\ intervals s' = intervals s
  /\ trace s' = trace s.
Proof.
  unfold updateFilledOrdersTable.
  destruct (filledTable s); simpl; [|now repeat split].
  destruct (filledOrdersData s) eqn:E; simpl; rewrite ?E; now repeat split.
Qed.

Lemma updatePendingOrdersTable_frame (now : float) (s : State) :
  let s' := updatePendingOrdersTable now s in
  filledOrdersData s' = filledOrdersData s
  /\ autoRefreshTimer s' = autoRefreshTimer s
  /\ intervals s' = intervals s
  /\ trace s' = trace s.
Proof.
  unfold updatePendingOrdersTable.
  destruct (pendingTable s); simpl; [|now repeat split].
  destruct (pendingOrdersData s) as [|o l] eqn:E; simpl.
  { now repeat split. }
  destruct (updateFilledOrdersTable_frame now
              (setPending (arraySort newestFirst (o :: l)) s))
    as (_ & -> & -> & -> & ->).
  now repeat split.
Qed.

(** The table's sort is all that happens to the store. *)
Lemma updatePendingOrdersTable_Permutation (now : float) (s : State) :
  Permutation (pendingOrdersData (updatePendingOrdersTable now s))
              (pendingOrdersData s).
Proof using arraySort_Permutation.
  unfold updatePendingOrdersTable.
  destruct (pendingTable s); simpl; [|reflexivity].
  destruct (pendingOrdersData s) as [|o l] eqn:E; simpl.
  { now rewrite E. }
  destruct (updateFilledOrdersTable_frame now
              (setPending (arraySort newestFirst (o :: l)) s)) as (-> & _).
  simpl. apply arraySort_Permutation.
Qed.

Lemma startAutoRefresh_frame (s : State) :
  let s' := startAutoRefresh s in
  pendingOrdersData s' = pendingOrdersData s
  /\ filledOrdersData s' = filledOrdersData s
  /\ weeklySummary s' = weeklySummary s
  /\ trace s' = trace s.
Proof.
  unfold startAutoRefresh. destruct (autoRefreshTimer s); now repeat split.
Qed.

Lemma stopAutoRefresh_frame (s : State) :
  let s' := stopAutoRefresh s in
  pendingOrdersData s' = pendingOrdersData s
  /\ filledOrdersData s' = filledOrdersData s
  /\ weeklySummary s' = weeklySummary s
  /\ trace s' = trace s.
Proof.
  unfold stopAutoRefresh. destruct (autoRefreshTimer s); now repeat split.
Qed.

(** *** An idle poll *)

(** C10: when no order is processing or canceling, [checkOrdersStatus]
    does what [stopAutoRefresh] does and nothing more: no request is sent
    (the trace is as before), both stores are as before, the timer handle
    is cleared and no interval is left running. *)
Theorem checkOrdersStatus_idle
    (now : float) (answer : outcome (option statusResult))
    (filled : outcome (option (list order))) (s : State) :
  hasTransient (pendingOrdersData s) = false ->
  checkOrdersStatus now answer filled s = stopAutoRefresh s
  /\ trace (checkOrdersStatus now answer filled s) = trace s
  /\ pendingOrdersData (checkOrdersStatus now answer filled s)
     = pendingOrdersData s
  /\ filledOrdersData (checkOrdersStatus now answer filled s)
     = filledOrdersData s
  /\ autoRefreshTimer (checkOrdersStatus now answer filled s) = None
  /\ (singleTimer s ->
      intervals (checkOrdersStatus now answer filled s) = []).
Proof.
  intros Hidle.
  assert (E : checkOrdersStatus now answer filled s = stopAutoRefresh s).
  { unfold checkOrdersStatus, checkOrdersStatus_call. now rewrite Hidle. }
  rewrite E.
  destruct (stopAutoRefresh_frame s) as (Hp & Hf & _ & Ht).
  repeat split; auto.
  - unfold stopAutoRefresh.
    destruct (autoRefreshTimer s) eqn:T; [reflexivity | exact T].
  - intros Hone. now apply scheduler_single_timer_stop.
Qed.

(** *** One timer at most *)

Lemma keepsStep_same (s s' : State) : sameTimers s s' -> keepsStep s s'.
Proof. unfold keepsStep, singleTimer. now intros [-> ->]. Qed.

Lemma keepsStep_trans (s1 s2 s3 : State) :
  keepsStep s1 s2 -> keepsStep s2 s3 -> keepsStep s1 s3.
Proof. unfold keepsStep. auto. Qed.

Lemma sameTimers_render (now : float) (s : State) :
  sameTimers s (updatePendingOrdersTable now s).
Proof. split; apply updatePendingOrdersTable_frame. Qed.

Lemma sameTimers_rendered (now : float) (l : list order) (s : State) :
  sameTimers s (updatePendingOrdersTable now (setPending l s)).
Proof. exact (sameTimers_render now (setPending l s)). Qed.

Lemma keepsStep_finish (s : State) : keepsStep s (checkOrdersStatus_finish s).
Proof.
  unfold checkOrdersStatus_finish. destruct (hasTransient _).
  - now apply keepsStep_same.
  - exact (singleTimer_stop s).
Qed.

Lemma sameTimers_loadFilled
    (now : float) (resp : outcome (option (list order))) (s : State) :
  sameTimers s (loadFilledOrders_settle now resp s).
Proof.
  destruct resp as [[orders|]|m]; simpl; try (now split).
  split; apply (updateFilledOrdersTable_frame now (setFilled _ s)).
Qed.

Lemma perform_keepsStep (a : action) (s : State) : keepsStep s (perform a s).
Proof.
  destruct a as [id|now id resp|id|now id resp| |now resp|now resp|id typed|q resp];
    simpl.
  - now apply keepsStep_same.
  - unfold executeOrderById_settle. destruct resp as [result|m];
      [|now apply keepsStep_same].
    eapply keepsStep_trans; [|exact (singleTimer_start _)].
    apply keepsStep_same.
    destruct (findIndex _ _); [apply sameTimers_rendered | now split].
  - now apply keepsStep_same.
  - unfold cancelOrderById_settle. destruct resp as [result|m];
      [|now apply keepsStep_same].
    eapply keepsStep_trans; [|exact (singleTimer_start _)].
    apply keepsStep_same.
    destruct (findIndex _ _); [apply sameTimers_rendered | now split].
  - unfold checkOrdersStatus_call. destruct (hasTransient _).
    + now apply keepsStep_same.
    + exact (singleTimer_stop s).
  - unfold checkOrdersStatus_settle.
    destruct resp as [[result|]|m]; simpl; try now apply keepsStep_same.
    destruct (truthy (success result)); simpl; [|now apply keepsStep_same].
    destruct (updated_orders result) as [[|u us]|]; simpl;
      try now apply keepsStep_same.
    destruct (mergeUpdates (u :: us) (pendingOrdersData s)) as [orders flag].
    destruct flag; simpl.
    + apply keepsStep_same, sameTimers_rendered.
    + eapply keepsStep_trans; [|apply keepsStep_finish].
      apply keepsStep_same, sameTimers_rendered.
  - unfold checkOrdersStatus_reloaded.
    eapply keepsStep_trans; [|apply keepsStep_finish].
    apply keepsStep_same, sameTimers_loadFilled.
  - unfold onQuantityInput. destruct (quantityAccepted _ _); simpl.
    + unfold updateOrderQuantity_call.
      destruct (findIndex _ _); now apply keepsStep_same.
    + destruct (findFirst _ _); now apply keepsStep_same.
  - unfold updateOrderQuantity_settle.
    destruct resp as [response|m]; [|now apply keepsStep_same].
    destruct (body response); [|now apply keepsStep_same].
    destruct (ok response); now apply keepsStep_same.
Qed.

Lemma run_keepsStep (actions : list action) (s : State) :
  keepsStep s (run actions s).
Proof.
  revert s. induction actions as [|a actions IH]; intros s; simpl.
  - now apply keepsStep_same.
  - eapply keepsStep_trans; [apply perform_keepsStep | apply IH].
Qed.

Lemma singleTimer_at_most_one (s : State) :
  singleTimer s -> length (intervals s) <= 1.
Proof.
  unfold singleTimer. intros ->. destruct (autoRefreshTimer s); simpl; lia.
Qed.

(** C5: with the handle and the browser's timers in step, [startAutoRefresh]
    and [stopAutoRefresh] keep them in step; a start while a timer runs
    changes nothing, two starts in a row leave exactly one timer running,
    a stop clears the handle and leaves no timer running, a stop without
    a timer changes nothing, and whatever the module runs afterwards, at
    most one timer is running. *)
Theorem scheduler_single_timer (s : State) :
  singleTimer s ->
  singleTimer (startAutoRefresh s)
  /\ singleTimer (stopAutoRefresh s)
  /\ (is_Some (autoRefreshTimer s) -> startAutoRefresh s = s)
  /\ startAutoRefresh (startAutoRefresh s) = startAutoRefresh s
  /\ length (intervals (startAutoRefresh (startAutoRefresh s))) = 1
  /\ autoRefreshTimer (stopAutoRefresh s) = None
  /\ intervals (stopAutoRefresh s) = []
  /\ (autoRefreshTimer s = None -> stopAutoRefresh s = s)
  /\ (forall actions,
        singleTimer (run actions s)
        /\ length (intervals (run actions s)) <= 1).
Proof.
  intros Hs.
  split; [now apply singleTimer_start|].
  split; [now apply singleTimer_stop|].
  split.
  { intros [h Hh]. unfold startAutoRefresh. now rewrite Hh. }
  assert (Hidem : startAutoRefresh (startAutoRefresh s) = startAutoRefresh s).
  { unfold startAutoRefresh at 2 3.
    destruct (autoRefreshTimer s) eqn:E.
    - unfold startAutoRefresh. now rewrite E.
    - reflexivity. }
  split; [exact Hidem|].
  split.
  { rewrite Hidem. pose proof (singleTimer_start s Hs) as H1.
    unfold singleTimer in H1. rewrite H1.
    unfold startAutoRefresh.
    destruct (autoRefreshTimer s) eqn:E; simpl; [now rewrite E | reflexivity]. }
  pose proof (singleTimer_stop s Hs) as H2.
  assert (Hnone : autoRefreshTimer (stopAutoRefresh s) = None).
  { unfold stopAutoRefresh.
    destruct (autoRefreshTimer s) eqn:E; [reflexivity | exact E]. }
  split; [exact Hnone|].
  split.
  { unfold singleTimer in H2. now rewrite Hnone in H2. }
  split.
  { intros Hn. unfold stopAutoRefresh. now rewrite Hn. }
  intros actions. pose proof (run_keepsStep actions s Hs) as Hrun.
  split; [exact Hrun | now apply singleTimer_at_most_one].
Qed.

(** *** A failed execute *)

Lemma quietSince_refl (s s' : State) : trace s' = trace s -> quietSince s s'.
Proof. intros H. exists []. now rewrite app_nil_r. Qed.

Lemma quietSince_trans (s1 s2 s3 : State) :
  quietSince s1 s2 -> quietSince s2 s3 -> quietSince s1 s3.
Proof.
  intros (e1 & H1 & Q1) (e2 & H2 & Q2). exists (e1 ++ e2).
  rewrite H2, H1, <- app_assoc. split; [reflexivity|].
  unfold executeRequests in *. now rewrite List.filter_app, Q1, Q2.
Qed.

Lemma quietSince_emit (e : event) (s : State) :
  isExecuteRequest e = false -> quietSince s (emit e s).
Proof.
  intros H. exists [e]. split; [reflexivity|].
  unfold executeRequests; simpl. now rewrite H.
Qed.

Lemma quietSince_executeRequests (s s' : State) :
  quietSince s s' ->
  executeRequests (trace s') = executeRequests (trace s).
Proof.
  intros (evs & -> & Q). unfold executeRequests in *.
  now rewrite List.filter_app, Q, app_nil_r.
Qed.

Lemma quietSince_render (now : float) (s : State) :
  quietSince s (updatePendingOrdersTable now s).
Proof.
  apply quietSince_refl. apply updatePendingOrdersTable_frame.
Qed.

Lemma quietSince_finish (s : State) : quietSince s (checkOrdersStatus_finish s).
Proof.
  apply quietSince_refl. unfold checkOrdersStatus_finish.
  destruct (hasTransient _); [reflexivity | apply stopAutoRefresh_frame].
Qed.

Lemma quietSince_loadFilled
    (now : float) (resp : outcome (option (list order))) (s : State) :
  quietSince s (loadFilledOrders_settle now resp s).
Proof.
  destruct resp as [[orders|]|m]; simpl.
  - apply quietSince_refl.
    now destruct (updateFilledOrdersTable_frame now
                    (setFilled
                       (List.filter
                          (fun o => strictEq (get o "status") (Str "executed")
                                    && truthy (get o "avg_fill_price"))
                          orders) s)) as (_ & _ & _ & _ & ->).
  - now apply quietSince_refl.
  - now apply quietSince_emit.
Qed.

Lemma perform_quiet (a : action) (s : State) :
  isExecuteClick a = false -> quietSince s (perform a s).
Proof.
  destruct a as [id|now id resp|id|now id resp| |now resp|now resp|id typed|q resp];
    simpl; intros Hclick; try discriminate.
  - (* ExecuteSettled *)
    unfold executeOrderById_settle. destruct resp as [result|m].
    + eapply quietSince_trans; [|apply quietSince_refl, startAutoRefresh_frame].
      eapply quietSince_trans; [|now apply quietSince_emit].
      destruct (findIndex _ _); [|now apply quietSince_refl].
      eapply quietSince_trans; [|apply quietSince_render].
      now apply quietSince_refl.
    + now apply quietSince_emit.
  - now apply quietSince_emit.
  - (* CancelSettled *)
    unfold cancelOrderById_settle. destruct resp as [result|m].
    + eapply quietSince_trans; [|apply quietSince_refl, startAutoRefresh_frame].
      eapply quietSince_trans; [|now apply quietSince_emit].
      destruct (findIndex _ _); [|now apply quietSince_refl].
      eapply quietSince_trans; [|apply quietSince_render].
      now apply quietSince_refl.
    + now apply quietSince_emit.
  - (* PollTick *)
    unfold checkOrdersStatus_call. destruct (hasTransient _).
    + now apply quietSince_emit.
    + apply quietSince_refl, stopAutoRefresh_frame.
  - (* StatusSettled *)
    unfold checkOrdersStatus_settle.
    destruct resp as [[result|]|m]; simpl; try now apply quietSince_refl.
    destruct (truthy (success result)); simpl; [|now apply quietSince_refl].
    destruct (updated_orders result) as [[|u us]|]; simpl;
      try now apply quietSince_refl.
    destruct (mergeUpdates (u :: us) (pendingOrdersData s)) as [orders flag].
    assert (Hr : quietSince s
                   (updatePendingOrdersTable now (setPending orders s))).
    { eapply quietSince_trans; [|apply quietSince_render].
      now apply quietSince_refl. }
    destruct flag; simpl.
    + eapply quietSince_trans; [exact Hr|]. now apply quietSince_emit.
    + eapply quietSince_trans; [exact Hr|]. apply quietSince_finish.
  - (* ReloadSettled *)
    unfold checkOrdersStatus_reloaded.
    eapply quietSince_trans; [apply quietSince_loadFilled|].
    apply quietSince_finish.
  - (* QuantityEdited *)
    unfold onQuantityInput. destruct (quantityAccepted _ _); simpl.
    + unfold updateOrderQuantity_call.
      destruct (findIndex _ _); [|now apply quietSince_refl].
      eapply quietSince_trans; [|now apply quietSince_emit].
      now apply quietSince_refl.
    + destruct (findFirst _ _); now apply quietSince_refl.
  - (* QuantitySettled *)
    unfold updateOrderQuantity_settle.
    destruct resp as [response|m]; [|now apply quietSince_emit].
    destruct (body response); [|now apply quietSince_emit].
    destruct (ok response); now apply quietSince_emit.
Qed.

Lemma run_quiet (actions : list action) (s : State) :
  forallb (fun a => negb (isExecuteClick a)) actions = true ->
  quietSince s (run actions s).
Proof.
  revert s. induction actions as [|a actions IH]; intros s H; simpl.
  - now apply quietSince_refl.
  - simpl in H. apply andb_true_iff in H as [Ha Hrest].
    eapply quietSince_trans; [|apply IH, Hrest].
    apply perform_quiet. now destruct (isExecuteClick a).
Qed.

(** C7: when the gateway rejects the execute request, [executeOrderById]
    leaves both stores, the timer and the summary as they were; its whole
    effect is the one request followed by a danger alert that carries the
    error's message; and whatever runs afterwards, short of another click
    on Execute, sends no further execute request. *)
Theorem executeOrderById_gateway_error
    (now : float) (orderId message : value) (s : State) :
  pendingOrdersData (executeOrderById now orderId (Rejected message) s)
  = pendingOrdersData s
  /\ filledOrdersData (executeOrderById now orderId (Rejected message) s)
     = filledOrdersData s
  /\ autoRefreshTimer (executeOrderById now orderId (Rejected message) s)
     = autoRefreshTimer s
  /\ intervals (executeOrderById now orderId (Rejected message) s)
     = intervals s
  /\ weeklySummary (executeOrderById now orderId (Rejected message) s)
     = weeklySummary s
  /\ trace (executeOrderById now orderId (Rejected message) s)
     = trace s ++ [Request (ReqExecuteOrder orderId);
                   Alert "danger" (ExecuteError message)]
  /\ forall actions,
       forallb (fun a => negb (isExecuteClick a)) actions = true ->
       executeRequests
         (trace (run actions
                   (executeOrderById now orderId (Rejected message) s)))
       = executeRequests (trace s) ++ [Request (ReqExecuteOrder orderId)].
Proof.
  repeat split; try reflexivity.
  - simpl. now rewrite <- app_assoc.
  - intros actions Hq.
    rewrite (quietSince_executeRequests _ _ (run_quiet actions _ Hq)).
    simpl. unfold executeRequests.
    rewrite !List.filter_app. simpl. now rewrite app_nil_r.
Qed.

(** *** Merging a fragment twice *)

Lemma SFeqb_refl_of_eqb (a b : spec_float) :
  SFeqb a b = true -> SFeqb b b = true.
Proof.
  unfold SFeqb. destruct b as [sb| sb| |sb mb eb]; simpl.
  - reflexivity.
  - now destruct sb.
  - now destruct a.
  - intros _. destruct sb; rewrite Z.compare_refl, Pos.compare_cont_refl;
      reflexivity.
Qed.

Lemma float_eqb_refl_of_eqb (x y : float) :
  (x =? y)%float = true -> (y =? y)%float = true.
Proof. rewrite !FloatAxioms.eqb_spec. apply SFeqb_refl_of_eqb. Qed.

(** A value that something is loosely equal to is loosely equal to
    itself: only NaN is not, and nothing equals NaN. *)
Lemma looseEq_refl_of_match (a b : value) :
  looseEq a b = true -> looseEq b b = true.
Proof.
  destruct b as [| |b|y|t]; simpl.
  - reflexivity.
  - reflexivity.
  - intros _. now destruct b.
  - destruct a; simpl; try discriminate; apply float_eqb_refl_of_eqb.
  - intros _. apply String.eqb_refl.
Qed.

Lemma findIndex_Some {A : Type} (p : A -> bool) (l : list A) (i : nat) :
  findIndex p l = Some i ->
  exists x, l !! i = Some x /\ p x = true
            /\ forall j y, j < i -> l !! j = Some y -> p y = false.
Proof.
  revert i. induction l as [|x l IH]; intros i; simpl; [discriminate|].
  destruct (p x) eqn:Px.
  - intros [= <-]. exists x. repeat split; auto. intros j y Hj. lia.
  - destruct (findIndex p l) as [k|] eqn:E; simpl; [|discriminate].
    intros [= <-]. destruct (IH k eq_refl) as (z & Hz & Pz & Hbefore).
    exists z. repeat split; auto.
    intros [|j] y Hj; simpl.
    + now intros [= <-].
    + apply Hbefore. lia.
Qed.

Lemma findIndex_insert {A : Type} (p : A -> bool) (l : list A) (i : nat)
    (x' : A) :
  findIndex p l = Some i -> p x' = true ->
  findIndex p (<[i := x']> l) = Some i.
Proof.
  revert i. induction l as [|x l IH]; intros i; simpl; [discriminate|].
  destruct (p x) eqn:Px.
  - intros [= <-] Hx'. simpl. now rewrite Hx'.
  - destruct (findIndex p l) as [k|] eqn:E; simpl; [|discriminate].
    intros [= <-] Hx'. simpl. rewrite Px. now rewrite (IH k eq_refl Hx').
Qed.

Lemma get_union (f o : order) (k : string) :
  get (f ∪ o) k = match f !! k with Some v => v | None => get o k end.
Proof.
  unfold get. rewrite lookup_union.
  destruct (f !! k), (o !! k); reflexivity.
Qed.

Lemma mergeUpdate_store
    (orders : list order) (flag : bool) (updatedOrder : order) :
  fst (mergeUpdate (orders, flag) updatedOrder) = merged updatedOrder orders.
Proof.
  unfold merged, mergeUpdate.
  destruct (findIndex _ orders) as [i|]; [|reflexivity].
  destruct (orders !! i); reflexivity.
Qed.

(** C4: merging the same fragment a second time changes nothing: the
    store after two merges is the store after one. *)
Theorem merge_fragment_idempotent
    (orders : list order) (updatedOrder : order) :
  merged updatedOrder (merged updatedOrder orders)
  = merged updatedOrder orders
  /\ fst (mergeUpdates [updatedOrder]
            (fst (mergeUpdates [updatedOrder] orders)))
     = fst (mergeUpdates [updatedOrder] orders).
Proof.
  assert (H : merged updatedOrder (merged updatedOrder orders)
              = merged updatedOrder orders).
  { unfold merged at 2 3. unfold mergeUpdate.
    set (p := fun o : order =>
                looseEq (get o "id") (get updatedOrder "id")).
    destruct (findIndex p orders) as [i|] eqn:Hfind.
    - destruct (findIndex_Some p orders i Hfind) as (cur & Hcur & Pcur & _).
      rewrite Hcur. simpl.
      assert (Pnew : p (updatedOrder ∪ cur) = true).
      { unfold p. rewrite get_union.
        destruct (updatedOrder !! "id") as [v|] eqn:Hid; [|exact Pcur].
        assert (Hv : get updatedOrder "id" = v)
          by (unfold get; now rewrite Hid).
        unfold p in Pcur. rewrite Hv in Pcur |- *.
        exact (looseEq_refl_of_match _ _ Pcur). }
      unfold merged, mergeUpdate. fold p.
      rewrite (findIndex_insert p orders i _ Hfind Pnew).
      assert (Hlt : i < length orders) by (eapply lookup_lt_Some; eauto).
      rewrite list_lookup_insert_eq by exact Hlt. simpl.
      rewrite list_insert_insert_eq.
      now rewrite (assoc_L (∪)), (idemp_L (∪)).
    - simpl. unfold merged, mergeUpdate. fold p. now rewrite Hfind. }
  split; [exact H|].
  unfold mergeUpdates. cbn [fold_left]. rewrite !mergeUpdate_store. exact H.
Qed.

(** *** Where a status can go *)

Lemma notRevived_refl (o : order) : notRevived o o.
Proof. now intros H. Qed.

Lemma notRevived_trans (o1 o2 o3 : order) :
  notRevived o1 o2 -> notRevived o2 o3 -> notRevived o1 o3.
Proof. unfold notRevived. auto. Qed.

Lemma status_insert_other (k : string) (v : value) (o : order) :
  k <> "status" -> status (<[k := v]> o) = status o.
Proof. intros H. unfold status, get. now rewrite lookup_insert_ne. Qed.

Lemma status_insert (v : value) (o : order) :
  status (<["status" := v]> o) = v.
Proof. unfold status, get. now rewrite lookup_insert_eq. Qed.

(** An execute writes [processing]. *)
Lemma status_markProcessing (result : executeResult) (o : order) :
  status (markProcessing result o) = Str "processing".
Proof.
  unfold markProcessing.
  destruct (execution_details result);
    rewrite !status_insert_other by discriminate; apply status_insert.
Qed.

(** A cancel writes [canceling] or [canceled]. *)
Lemma status_markCanceled (result : cancelResult) (o : order) :
  status (markCanceled result o) = Str "canceling"
  \/ status (markCanceled result o) = Str "canceled".
Proof.
  unfold markCanceled.
  destruct (truthy (ib_status result));
    rewrite ?status_insert_other by discriminate; rewrite status_insert;
    destruct (strictEq _ _); auto.
Qed.

(** A merge writes the fragment's status when it has one. *)
Lemma status_union (updatedOrder current : order) :
  status (updatedOrder ∪ current)
  = match updatedOrder !! "status" with
    | Some v => v
    | None => status current
    end.
Proof. apply get_union. Qed.

Lemma idOf_insert_other (k : string) (v : value) (o : order) :
  k <> "id" -> idOf (<[k := v]> o) = idOf o.
Proof. intros H. unfold idOf, get. now rewrite lookup_insert_ne. Qed.

(** Neither an execute nor a cancel writes the identifier. *)
Lemma idOf_markProcessing (result : executeResult) (o : order) :
  idOf (markProcessing result o) = idOf o.
Proof.
  unfold markProcessing.
  destruct (execution_details result);
    now rewrite !idOf_insert_other by discriminate.
Qed.

Lemma idOf_markCanceled (result : cancelResult) (o : order) :
  idOf (markCanceled result o) = idOf o.
Proof.
  unfold markCanceled.
  destruct (truthy (ib_status result));
    now rewrite !idOf_insert_other by discriminate.
Qed.

Lemma sameOrder_refl (o : order) : sameOrderNotRevived o o.
Proof. split; [reflexivity | apply notRevived_refl]. Qed.

Lemma sameOrder_trans (o1 o2 o3 : order) :
  sameOrderNotRevived o1 o2 -> sameOrderNotRevived o2 o3 ->
  sameOrderNotRevived o1 o3.
Proof.
  intros [I1 R1] [I2 R2]. split; [congruence|].
  eapply notRevived_trans; eauto.
Qed.

Lemma Forall2_sameOrder_refl (l : list order) :
  Forall2 sameOrderNotRevived l l.
Proof. apply Forall_Forall2_diag, Forall_forall. intros; apply sameOrder_refl. Qed.

Lemma tracked_same (l l' : list order) :
  Permutation l l' -> followed sameOrderNotRevived l l'.
Proof. intros H. exists l. split; [apply Forall2_sameOrder_refl | exact H]. Qed.

Lemma tracked_step (l m : list order) :
  Forall2 sameOrderNotRevived l m -> followed sameOrderNotRevived l m.
Proof. intros H. exists m. split; [exact H | reflexivity]. Qed.

Lemma tracked_trans (l1 l2 l3 : list order) :
  followed sameOrderNotRevived l1 l2 -> followed sameOrderNotRevived l2 l3 ->
  followed sameOrderNotRevived l1 l3.
Proof.
  intros (m1 & F1 & P1) (m2 & F2 & P2).
  destruct (Permutation_Forall2 (Permutation_sym P1) F2) as (m' & Pm & Fm).
  exists m'. split.
  - eapply Forall2_trans; [|exact F1|exact Fm]. apply sameOrder_trans.
  - now rewrite <- Pm.
Qed.

Lemma alter_sameOrder (f : order -> order) (i : nat) (l : list order) :
  (forall o, sameOrderNotRevived o (f o)) ->
  Forall2 sameOrderNotRevived l (alter f i l).
Proof.
  intros H. apply Forall2_alter_r; [apply Forall2_sameOrder_refl|].
  intros x y _ _ Hxy. eapply sameOrder_trans; [exact Hxy | apply H].
Qed.

Lemma render_tracked (now : float) (l : list order) (s : State) :
  followed sameOrderNotRevived l
    (pendingOrdersData (updatePendingOrdersTable now (setPending l s))).
Proof using arraySort_Permutation.
  apply tracked_same. symmetry.
  exact (updatePendingOrdersTable_Permutation now (setPending l s)).
Qed.

(** The identifiers of [l] are among [ids]. *)
Lemma idsWithin_followed (ids : list value) (l l' : list order) :
  followed sameOrderNotRevived l l' ->
  Forall (fun o => In (idOf o) ids) l ->
  Forall (fun o => In (idOf o) ids) l'.
Proof.
  intros (m & F & P) H. rewrite <- P. clear P l'.
  induction F as [|o o' l m [Hid _] F IH]; [constructor|].
  inversion H as [|? ? Ho Hl]; subst.
  constructor; [now rewrite Hid | now apply IH].
Qed.

Lemma mergeUpdate_sameOrder
    (ids : list value) (acc : list order * bool) (updatedOrder : order) :
  exactIds ids ->
  Forall (fun o => In (idOf o) ids) (fst acc) ->
  In (idOf updatedOrder) ids ->
  keepsOffPending updatedOrder ->
  Forall2 sameOrderNotRevived (fst acc) (fst (mergeUpdate acc updatedOrder)).
Proof.
  intros Hexact Hin Hf Hoff. destruct acc as [orders flag].
  unfold mergeUpdate.
  destruct (findIndex _ orders) as [i|] eqn:Hi;
    [|apply Forall2_sameOrder_refl].
  destruct (findIndex_Some _ _ _ Hi) as (cur & Hcur & Pcur & _).
  rewrite Hcur. simpl.
  rewrite <- (list_insert_id orders i cur Hcur) at 1.
  apply Forall2_insert; [apply Forall2_sameOrder_refl|].
  split.
  - unfold idOf. rewrite get_union.
    destruct (updatedOrder !! "id") as [v|] eqn:Hv; [|reflexivity].
    assert (Ev : get updatedOrder "id" = v) by (unfold get; now rewrite Hv).
    rewrite <- Ev. symmetry. apply Hexact; [|exact Hf|exact Pcur].
    simpl in Hin. rewrite Forall_forall in Hin. apply Hin.
    eapply list_elem_of_lookup_2; eauto.
  - unfold notRevived. rewrite status_union.
    unfold keepsOffPending, get in Hoff.
    destruct (updatedOrder !! "status"); simpl in Hoff; [contradiction | auto].
Qed.

Lemma mergeUpdates_sameOrder
    (ids : list value) (updated : list order) (acc : list order * bool) :
  exactIds ids ->
  Forall (fun o => In (idOf o) ids) (fst acc) ->
  Forall (fun f => In (idOf f) ids) updated ->
  Forall keepsOffPending updated ->
  Forall2 sameOrderNotRevived
    (fst acc) (fst (fold_left mergeUpdate updated acc)).
Proof.
  intros Hexact. revert acc.
  induction updated as [|u us IH]; intros acc Hin Hids Hoff; cbn [fold_left].
  - apply Forall2_sameOrder_refl.
  - inversion Hids as [|? ? Hu Hus]; subst.
    inversion Hoff as [|? ? Ou Ous]; subst.
    pose proof (mergeUpdate_sameOrder ids acc u Hexact Hin Hu Ou) as Hstep.
    eapply Forall2_trans; [apply sameOrder_trans|exact Hstep|].
    apply IH; auto.
    apply (idsWithin_followed ids (fst acc)); [|exact Hin].
    now apply tracked_step.
Qed.

Lemma keepsOffPending_of_bool (updated : list order) :
  existsb fragmentSaysPending updated = false ->
  Forall keepsOffPending updated.
Proof.
  induction updated as [|f l IH]; simpl; [constructor|].
  intros H. apply orb_false_iff in H as [Hf Hl].
  constructor; [|now apply IH].
  unfold keepsOffPending, fragmentSaysPending in *.
  destruct (get f "status") as [| |b|x|st]; try discriminate.
  intros [= ->]. discriminate.
Qed.

Lemma perform_tracked (ids : list value) (a : action) (s : State) :
  exactIds ids ->
  Forall (fun o => In (idOf o) ids) (pendingOrdersData s) ->
  incl (fragmentIds a) ids ->
  saysPending a = false ->
  followed sameOrderNotRevived
    (pendingOrdersData s) (pendingOrdersData (perform a s)).
Proof using arraySort_Permutation.
  intros Hexact Hin Hfrag.
  destruct a as [id|now id resp|id|now id resp| |now resp|now resp|id typed|q resp];
    simpl; intros Hsay.
  - now apply tracked_same.
  - (* ExecuteSettled *)
    unfold executeOrderById_settle. destruct resp as [result|m];
      [|now apply tracked_same].
    rewrite (proj1 (startAutoRefresh_frame _)). simpl.
    destruct (findIndex _ _) as [i|]; [|now apply tracked_same].
    eapply tracked_trans; [|apply render_tracked].
    apply tracked_step, alter_sameOrder.
    intros o. split; [apply idOf_markProcessing|].
    intros H. rewrite status_markProcessing in H. discriminate.
  - now apply tracked_same.
  - (* CancelSettled *)
    unfold cancelOrderById_settle. destruct resp as [result|m];
      [|now apply tracked_same].
    rewrite (proj1 (startAutoRefresh_frame _)). simpl.
    destruct (findIndex _ _) as [i|]; [|now apply tracked_same].
    eapply tracked_trans; [|apply render_tracked].
    apply tracked_step, alter_sameOrder.
    intros o. split; [apply idOf_markCanceled|].
    intros H.
    destruct (status_markCanceled result o) as [K|K]; rewrite K in H;
      discriminate.
  - (* PollTick *)
    unfold checkOrdersStatus_call. destruct (hasTransient _).
    + now apply tracked_same.
    + rewrite (proj1 (stopAutoRefresh_frame _)). now apply tracked_same.
  - (* StatusSettled *)
    unfold checkOrdersStatus_settle.
    destruct resp as [[result|]|m]; simpl; try now apply tracked_same.
    destruct (truthy (success result)); simpl; [|now apply tracked_same].
    simpl in Hfrag.
    destruct (updated_orders result) as [[|u us]|] eqn:Hup; simpl;
      try now apply tracked_same.
    assert (Hall : Forall keepsOffPending (u :: us)).
    { apply keepsOffPending_of_bool. exact Hsay. }
    assert (Hids : Forall (fun f => In (idOf f) ids) (u :: us)).
    { apply Forall_forall. intros f Hf. apply Hfrag.
      apply in_map. now apply list_elem_of_In. }
    pose proof (mergeUpdates_sameOrder ids (u :: us)
                  (pendingOrdersData s, false) Hexact Hin Hids Hall) as Hm.
    fold (mergeUpdates (u :: us) (pendingOrdersData s)) in Hm.
    destruct (mergeUpdates (u :: us) (pendingOrdersData s)) as [orders flag].
    simpl in Hm.
    assert (Hr : followed sameOrderNotRevived (pendingOrdersData s)
                   (pendingOrdersData
                      (updatePendingOrdersTable now (setPending orders s)))).
    { eapply tracked_trans; [apply tracked_step, Hm|apply render_tracked]. }
    destruct flag; simpl; [exact Hr|].
    unfold checkOrdersStatus_finish. destruct (hasTransient _); [exact Hr|].
    now rewrite (proj1 (stopAutoRefresh_frame _)).
  - (* ReloadSettled *)
    unfold checkOrdersStatus_reloaded, checkOrdersStatus_finish.
    assert (E : pendingOrdersData (loadFilledOrders_settle now resp s)
                = pendingOrdersData s).
    { destruct resp as [[orders|]|m]; simpl; try reflexivity.
      now rewrite (proj1 (updateFilledOrdersTable_frame now _)). }
    destruct (hasTransient _);
      rewrite ?(proj1 (stopAutoRefresh_frame _)), E; now apply tracked_same.
  - (* QuantityEdited *)
    unfold onQuantityInput. destruct (quantityAccepted _ _); simpl.
    + unfold updateOrderQuantity_call.
      destruct (findIndex _ _) as [i|]; [|now apply tracked_same].
      simpl. apply tracked_step, alter_sameOrder.
      intros o. split; [now apply idOf_insert_other|].
      intros H. rewrite status_insert_other in H by discriminate. exact H.
    + destruct (findFirst _ _); now apply tracked_same.
  - (* QuantitySettled *)
    unfold updateOrderQuantity_settle.
    destruct resp as [response|m]; [|now apply tracked_same].
    destruct (body response); [|now apply tracked_same].
    destruct (ok response); now apply tracked_same.
Qed.

Lemma run_tracked (ids : list value) (actions : list action) (s : State) :
  exactIds ids ->
  Forall (fun o => In (idOf o) ids) (pendingOrdersData s) ->
  incl (flat_map fragmentIds actions) ids ->
  forallb (fun a => negb (saysPending a)) actions = true ->
  followed sameOrderNotRevived
    (pendingOrdersData s) (pendingOrdersData (run actions s)).
Proof using arraySort_Permutation.
  intros Hexact. revert s.
  induction actions as [|a actions IH]; intros s Hin Hfrag H; simpl.
  - now apply tracked_same.
  - simpl in H. apply andb_true_iff in H as [Ha Hrest].
    simpl in Hfrag.
    assert (Hstep : followed sameOrderNotRevived (pendingOrdersData s)
                      (pendingOrdersData (perform a s))).
    { apply (perform_tracked ids); auto.
      - intros v Hv. apply Hfrag, in_or_app. now left.
      - now destruct (saysPending a). }
    eapply tracked_trans; [exact Hstep|].
    apply IH; auto.
    + now apply (idsWithin_followed ids (pendingOrdersData s)).
    + intros v Hv. apply Hfrag, in_or_app. now right.
Qed.

Lemma same_id_same_order (l : list order) (o1 o2 : order) :
  List.NoDup (List.map idOf l) -> In o1 l -> In o2 l -> idOf o1 = idOf o2 ->
  o1 = o2.
Proof.
  induction l as [|x l IH]; simpl; [contradiction|].
  intros Hnd. apply List.NoDup_cons_iff in Hnd as [Hx Hl].
  intros [<-|H1] [<-|H2] E; auto.
  - exfalso. apply Hx. rewrite E. now apply in_map.
  - exfalso. apply Hx. rewrite <- E. now apply in_map.
Qed.

(** C2, as the code has it.  Take a run of the module's turns (clicks,
    settled execute and cancel calls, poll ticks, status answers, reloads
    and quantity edits) in which no status fragment says [pending], and
    let the identifiers of the store and of the fragments be exact, so
    that a fragment is merged into the order that has its identifier and
    leaves that identifier as it is.  Then every order of the store is
    found again in the store afterwards under its identifier and not back
    in [pending]; and when the store's identifiers are distinct, an order
    identified by its [id] that is [pending] after the run was [pending]
    before it: none that had left [pending] is back in it. *)
Theorem status_never_back_to_pending (actions : list action) (s : State) :
  exactIds (List.map idOf (pendingOrdersData s)
            ++ flat_map fragmentIds actions) ->
  forallb (fun a => negb (saysPending a)) actions = true ->
  followed sameOrderNotRevived
    (pendingOrdersData s) (pendingOrdersData (run actions s))
  /\ (List.NoDup (List.map idOf (pendingOrdersData s)) ->
      forall o o',
        In o (pendingOrdersData s) ->
        In o' (pendingOrdersData (run actions s)) ->
        idOf o' = idOf o ->
        status o' = Str "pending" -> status o = Str "pending").
Proof using arraySort_Permutation.
  intros Hexact Hquiet.
  assert (Htrack : followed sameOrderNotRevived
                     (pendingOrdersData s) (pendingOrdersData (run actions s))).
  { apply (run_tracked (List.map idOf (pendingOrdersData s)
                        ++ flat_map fragmentIds actions)); auto.
    - apply Forall_forall. intros o Ho. apply in_or_app. left.
      apply in_map. now apply list_elem_of_In.
    - intros v Hv. apply in_or_app. now right. }
  split; [exact Htrack|].
  intros Hnd o o' Ho Ho' Hid Hpending.
  destruct Htrack as (m & F & P).
  assert (Hm : o' ∈ m).
  { rewrite P. now apply list_elem_of_In. }
  apply list_elem_of_lookup in Hm as [j Hj].
  destruct (Forall2_lookup_r _ _ _ _ _ F Hj) as (o1 & Hj1 & [Hid1 Hrev]).
  assert (E : o1 = o).
  { apply (same_id_same_order (pendingOrdersData s)); auto.
    - apply list_elem_of_In. eapply list_elem_of_lookup_2; eauto.
    - congruence. }
  subst o1. now apply Hrev.
Qed.

(** *** A rejected quantity *)

(** C8, as the code has it: when the typed text has no leading integer
    ([parseInt(text, 10)] is NaN) or a leading integer that is not above
    zero, the listener changes nothing and sends nothing, and it sets the
    input to the stored quantity (or 1) of the first order whose [id] is
    strictly equal to [parseInt(orderId, 10)]; without such an order the
    input keeps what was typed. *)
Theorem quantity_input_rejected (orderId : value) (typed : string) (s : State) :
  PrimFloat.is_nan (parseIntString true typed) = true
  \/ (0 <? parseIntString true typed)%float = false ->
  fst (onQuantityInput orderId typed s) = s
  /\ snd (onQuantityInput orderId typed s)
     = shownQuantity
         <$> findFirst
               (fun o => strictEq (get o "id") (Num (parseInt true orderId)))
               (pendingOrdersData s).
Proof.
  intros H. unfold onQuantityInput.
  assert (E : quantityAccepted orderId (parseIntString true typed) = false).
  { unfold quantityAccepted. destruct H as [-> | ->];
      destruct (truthy orderId); simpl; auto using andb_false_r. }
  rewrite E. destruct (findFirst _ _); split; reflexivity.
Qed.

(** *** The date of the epoch *)

(** C9: a zero, and every input that [formatDate] reads as a Unix
    timestamp and resolves to less than 86,400,000 ms, is rendered as the
    empty string. *)
Theorem formatDate_epoch_is_no_date (dateString : value) :
  dateString = Num 0
  \/ (isUnixTimestamp dateString = true
      /\ (resolvedTimestamp dateString <? 86400000)%float = true) ->
  formatDate dateString = "".
Proof.
  intros [-> | [Hunix Hlow]]; [reflexivity|].
  unfold formatDate. destruct (truthy dateString); simpl; [|reflexivity].
  now rewrite Hunix, Hlow.
Qed.

(** *** The weekly earnings of two orders *)

Lemma netPremium_of_fields (o : order) (fillPrice quantity commission : float) :
  get o "avg_fill_price" = Num fillPrice ->
  get o "quantity" = Num quantity ->
  get o "commission" = Num commission ->
  truthy (Num fillPrice) = true ->
  truthy (Num quantity) = true ->
  truthy (Num commission) = true ->
  netPremium o = (fillPrice * 100 * quantity - commission)%float.
Proof.
  intros Hp Hq Hc Tp Tq Tc. unfold netPremium, or.
  now rewrite Hp, Hq, Hc, Tp, Tq, Tc.
Qed.

(** C1, as the code has it: for two executed orders of the current week
    with fill price 2.50, quantity 1, commission 0.65 and fill price 1.10,
    quantity 2, commission 0.65, the net premiums are 249.35 and 219.35,
    the total is 468.70, the count 2 and the average 234.35, to the cent;
    the doubles computed are 249.35, 219.35000000000002,
    468.70000000000005 and 234.35000000000002, and these are what the
    summary formats. *)
Theorem weekly_earnings_of_two_orders (now : float) (o1 o2 : order) (s : State) :
  filledThisWeek now o1 2.50 1 0.65 ->
  filledThisWeek now o2 1.10 2 0.65 ->
  filledTable s = true ->
  netPremium o1 = 249.35%float
  /\ netPremium o2 = 219.35000000000002%float
  /\ totalEarnings now [o1; o2] = 468.70000000000005%float
  /\ length (weeklyOrders now [o1; o2]) = 2
  /\ averagePremium 2 (totalEarnings now [o1; o2]) = 234.35000000000002%float
  /\ sameCents (netPremium o2) 219.35 = true
  /\ sameCents (totalEarnings now [o1; o2]) 468.70 = true
  /\ sameCents (averagePremium 2 (totalEarnings now [o1; o2])) 234.35 = true
  /\ weeklySummary (updateFilledOrdersTable now (setFilled [o1; o2] s))
     = {| weekly_earnings_total := formatCurrency (Num 468.70000000000005);
          weekly_order_count := 2;
          weekly_average_premium :=
            formatCurrency (Num 234.35000000000002) |}.
Proof.
  intros (S1 & P1 & Q1 & C1 & W1) (S2 & P2 & Q2 & C2 & W2) Htable.
  assert (N1 : netPremium o1 = 249.35%float).
  { rewrite (netPremium_of_fields o1 2.50 1 0.65) by (assumption || reflexivity).
    reflexivity. }
  assert (N2 : netPremium o2 = 219.35000000000002%float).
  { rewrite (netPremium_of_fields o2 1.10 2 0.65) by (assumption || reflexivity).
    reflexivity. }
  assert (T : totalEarnings now [o1; o2] = 468.70000000000005%float).
  { unfold totalEarnings. simpl. rewrite W1, W2, N1, N2. reflexivity. }
  assert (L : weeklyOrders now [o1; o2] = [o1; o2]).
  { unfold weeklyOrders. simpl. rewrite S1, S2, W1, W2. reflexivity. }
  assert (A : averagePremium 2 (totalEarnings now [o1; o2])
              = 234.35000000000002%float).
  { rewrite T. reflexivity. }
  rewrite A, T, N1, N2, L.
  repeat split; try reflexivity.
  unfold updateFilledOrdersTable.
  replace (filledTable (setFilled [o1; o2] s)) with true
    by (symmetry; exact Htable).
  cbn [negb filledOrdersData setFilled].
  unfold updateWeeklyEarningsSummary. rewrite L, T. reflexivity.
Qed.

(** *** An empty reload *)

(** With no filled order, [updateFilledOrdersTable] returns before it
    reaches the summary: the three text nodes keep what they showed. *)
Lemma updateFilledOrdersTable_empty (now : float) (s : State) :
  filledOrdersData s = [] -> updateFilledOrdersTable now s = s.
Proof.
  intros H. unfold updateFilledOrdersTable.
  destruct (filledTable s); simpl; [|reflexivity]. now rewrite H.
Qed.

Lemma weeklyOrders_none (now : float) (l : list order) :
  Forall (fun o => isWithinCurrentWeek now (createdAt o) = false) l ->
  weeklyOrders now l = [].
Proof.
  unfold weeklyOrders. induction 1 as [|x k Hx Hk IH]; simpl; auto.
  rewrite Hx, andb_false_r. exact IH.
Qed.

Lemma totalEarnings_none (now : float) (l : list order) :
  Forall (fun o => isWithinCurrentWeek now (createdAt o) = false) l ->
  totalEarnings now l = 0%float.
Proof.
  unfold totalEarnings. generalize 0%float as acc.
  induction l as [|x k IH]; intros acc H; simpl; auto.
  inversion H as [|? ? Hx Hk]; subst. rewrite Hx. now apply IH.
Qed.

(** With filled orders none of which falls in the current week, the
    summary is written, and shows zero everywhere. *)
Lemma updateFilledOrdersTable_none_this_week (now : float) (s : State) :
  filledTable s = true ->
  filledOrdersData s <> [] ->
  Forall (fun o => isWithinCurrentWeek now (createdAt o) = false)
         (filledOrdersData s) ->
  weeklySummary (updateFilledOrdersTable now s)
  = {| weekly_earnings_total := formatCurrency (Num 0);
       weekly_order_count := 0;
       weekly_average_premium := formatCurrency (Num 0) |}.
Proof.
  intros Htable Hne Hout. unfold updateFilledOrdersTable. rewrite Htable.
  cbn [negb].
  destruct (filledOrdersData s) as [|o l] eqn:E; [contradiction|].
  unfold updateWeeklyEarningsSummary.
  rewrite (weeklyOrders_none now _ Hout), (totalEarnings_none now _ Hout).
  reflexivity.
Qed.

(** ** Further properties *)

(** *** The filled orders *)

Lemma strictEq_Str (v : value) (t : string) :
  strictEq v (Str t) = true -> v = Str t.
Proof.
  destruct v as [| |b|x|u]; simpl; try discriminate.
  intros H. apply String.eqb_eq in H. now subst.
Qed.

Lemma strictEq_Str_refl (t : string) : strictEq (Str t) (Str t) = true.
Proof. simpl. apply String.eqb_refl. Qed.

Lemma loadFilledOrders_settle_filled
    (now : float) (resp : outcome (option (list order))) (s : State) :
  Forall filledOrder (filledOrdersData s) ->
  Forall filledOrder (filledOrdersData (loadFilledOrders_settle now resp s)).
Proof.
  intros H. destruct resp as [[orders|]|m]; simpl; auto.
  rewrite (proj1 (proj2 (updateFilledOrdersTable_frame now _))). simpl.
  apply Forall_forall. intros o Ho.
  apply list_elem_of_In, List.filter_In in Ho as [_ Ho].
  apply andb_true_iff in Ho as [Hs Hp].
  split; [now apply strictEq_Str | exact Hp].
Qed.

Lemma perform_filled (a : action) (s : State) :
  Forall filledOrder (filledOrdersData s) ->
  Forall filledOrder (filledOrdersData (perform a s)).
Proof.
  intros H.
  destruct a as [id|now id resp|id|now id resp| |now resp|now resp|id typed|q resp];
    simpl.
  - exact H.
  - unfold executeOrderById_settle. destruct resp as [result|m]; [|exact H].
    rewrite (proj1 (proj2 (startAutoRefresh_frame _))). simpl.
    destruct (findIndex _ _); [|exact H].
    now rewrite (proj1 (updatePendingOrdersTable_frame now _)).
  - exact H.
  - unfold cancelOrderById_settle. destruct resp as [result|m]; [|exact H].
    rewrite (proj1 (proj2 (startAutoRefresh_frame _))). simpl.
    destruct (findIndex _ _); [|exact H].
    now rewrite (proj1 (updatePendingOrdersTable_frame now _)).
  - unfold checkOrdersStatus_call. destruct (hasTransient _); [exact H|].
    now rewrite (proj1 (proj2 (stopAutoRefresh_frame _))).
  - unfold checkOrdersStatus_settle.
    destruct resp as [[result|]|m]; simpl; auto.
    destruct (truthy (success result)); simpl; auto.
    destruct (updated_orders result) as [[|u us]|]; simpl; auto.
    destruct (mergeUpdates (u :: us) (pendingOrdersData s)) as [orders flag].
    destruct flag; simpl.
    + now rewrite (proj1 (updatePendingOrdersTable_frame now _)).
    + unfold checkOrdersStatus_finish. destruct (hasTransient _);
        rewrite ?(proj1 (proj2 (stopAutoRefresh_frame _)));
        now rewrite (proj1 (updatePendingOrdersTable_frame now _)).
  - unfold checkOrdersStatus_reloaded, checkOrdersStatus_finish.
    destruct (hasTransient _);
      rewrite ?(proj1 (proj2 (stopAutoRefresh_frame _)));
      now apply loadFilledOrders_settle_filled.
  - unfold onQuantityInput. destruct (quantityAccepted _ _); simpl.
    + unfold updateOrderQuantity_call. destruct (findIndex _ _); exact H.
    + destruct (findFirst _ _); exact H.
  - unfold updateOrderQuantity_settle.
    destruct resp as [response|m]; [|exact H].
    destruct (body response); [|exact H].
    destruct (ok response); exact H.
Qed.

(** X1: the filled-orders collection only ever holds executed orders with
    a fill price: a load that brings orders keeps just those, and no turn
    of the module lets another kind in. *)
Theorem filled_orders_are_executed_with_price :
  (forall now orders s,
      Forall filledOrder
        (filledOrdersData
           (loadFilledOrders now (Resolved (Some orders)) s)))
  /\ (forall actions s,
        Forall filledOrder (filledOrdersData s) ->
        Forall filledOrder (filledOrdersData (run actions s))).
Proof.
  split.
  - intros now orders s. unfold loadFilledOrders. simpl.
    rewrite (proj1 (proj2 (updateFilledOrdersTable_frame now _))). simpl.
    apply Forall_forall. intros o Ho.
    apply list_elem_of_In, List.filter_In in Ho as [_ Ho].
    apply andb_true_iff in Ho as [Hs Hp].
    split; [now apply strictEq_Str | exact Hp].
  - intros actions. induction actions as [|a actions IH]; intros s H; simpl.
    + exact H.
    + apply IH. now apply perform_filled.
Qed.

Lemma totalEarnings_from (now : float) (l : list order) (acc : float) :
  fold_left
    (fun total o =>
       if isWithinCurrentWeek now (createdAt o)
       then (total + netPremium o)%float else total) l acc
  = fold_left (fun total o => (total + netPremium o)%float)
      (summedOrders now l) acc.
Proof.
  revert acc. induction l as [|o l IH]; intros acc; simpl; [reflexivity|].
  destruct (isWithinCurrentWeek now (createdAt o)); simpl; apply IH.
Qed.

(** X2: the total is the sum of the net premiums of the orders of the
    current week, whatever their status, while the count (and so the
    average's divisor) takes the executed ones among them; on a collection
    of executed orders, as [loadFilledOrders] leaves it, the two agree and
    the average divides the sum by the number of orders summed. *)
Theorem weekly_total_and_count (now : float) (filled : list order) :
  totalEarnings now filled = premiumSum (summedOrders now filled)
  /\ length (weeklyOrders now filled) <= length (summedOrders now filled)
  /\ (Forall filledOrder filled ->
      weeklyOrders now filled = summedOrders now filled).
Proof.
  split; [apply totalEarnings_from|].
  split.
  - unfold weeklyOrders, summedOrders.
    induction filled as [|o l IH]; simpl; [lia|].
    destruct (isWithinCurrentWeek now (createdAt o));
      destruct (strictEq _ _); simpl; lia.
  - intros H. unfold weeklyOrders, summedOrders.
    induction H as [|o l [Ho _] Hl IH]; simpl; [reflexivity|].
    rewrite Ho, strictEq_Str_refl. simpl.
    destruct (isWithinCurrentWeek now (createdAt o)); now rewrite IH.
Qed.

(** *** The size of the store *)

Lemma updatePendingOrdersTable_length (now : float) (l : list order) (s : State) :
  length (pendingOrdersData (updatePendingOrdersTable now (setPending l s)))
  = length l.
Proof using arraySort_Permutation.
  exact (Permutation_length
           (updatePendingOrdersTable_Permutation now (setPending l s))).
Qed.

Lemma mergeUpdate_length (acc : list order * bool) (updatedOrder : order) :
  length (fst (mergeUpdate acc updatedOrder)) = length (fst acc).
Proof.
  destruct acc as [orders flag]. unfold mergeUpdate.
  destruct (findIndex _ orders) as [i|]; [|reflexivity].
  destruct (orders !! i); [|reflexivity].
  simpl. apply length_insert.
Qed.

Lemma mergeUpdates_length (updated orders : list order) :
  length (fst (mergeUpdates updated orders)) = length orders.
Proof.
  unfold mergeUpdates.
  change (length orders) with (length (fst (orders, false))).
  generalize (orders, false) as acc.
  induction updated as [|u us IH]; intros acc; cbn [fold_left]; [reflexivity|].
  rewrite IH. apply mergeUpdate_length.
Qed.

Lemma perform_length (a : action) (s : State) :
  length (pendingOrdersData (perform a s)) = length (pendingOrdersData s).
Proof using arraySort_Permutation.
  destruct a as [id|now id resp|id|now id resp| |now resp|now resp|id typed|q resp];
    simpl.
  - reflexivity.
  - unfold executeOrderById_settle. destruct resp as [result|m]; [|reflexivity].
    rewrite (proj1 (startAutoRefresh_frame _)). simpl.
    destruct (findIndex _ _); [|reflexivity].
    rewrite updatePendingOrdersTable_length. apply length_alter.
  - reflexivity.
  - unfold cancelOrderById_settle. destruct resp as [result|m]; [|reflexivity].
    rewrite (proj1 (startAutoRefresh_frame _)). simpl.
    destruct (findIndex _ _); [|reflexivity].
    rewrite updatePendingOrdersTable_length. apply length_alter.
  - unfold checkOrdersStatus_call. destruct (hasTransient _); [reflexivity|].
    now rewrite (proj1 (stopAutoRefresh_frame _)).
  - unfold checkOrdersStatus_settle.
    destruct resp as [[result|]|m]; simpl; auto.
    destruct (truthy (success result)); simpl; auto.
    destruct (updated_orders result) as [[|u us]|]; simpl; auto.
    pose proof (mergeUpdates_length (u :: us) (pendingOrdersData s)) as Hm.
    destruct (mergeUpdates (u :: us) (pendingOrdersData s)) as [orders flag].
    simpl in Hm.
    destruct flag; simpl.
    + now rewrite updatePendingOrdersTable_length.
    + unfold checkOrdersStatus_finish. destruct (hasTransient _);
        rewrite ?(proj1 (stopAutoRefresh_frame _));
        now rewrite updatePendingOrdersTable_length.
  - unfold checkOrdersStatus_reloaded, checkOrdersStatus_finish.
    assert (E : pendingOrdersData (loadFilledOrders_settle now resp s)
                = pendingOrdersData s).
    { destruct resp as [[orders|]|m]; simpl; try reflexivity.
      now rewrite (proj1 (updateFilledOrdersTable_frame now _)). }
    destruct (hasTransient _);
      rewrite ?(proj1 (stopAutoRefresh_frame _)), E; reflexivity.
  - unfold onQuantityInput. destruct (quantityAccepted _ _); simpl.
    + unfold updateOrderQuantity_call.
      destruct (findIndex _ _); [|reflexivity]. simpl. apply length_alter.
    + destruct (findFirst _ _); reflexivity.
  - unfold updateOrderQuantity_settle.
    destruct resp as [response|m]; [|reflexivity].
    destruct (body response); [|reflexivity].
    destruct (ok response); reflexivity.
Qed.

(** X3: executing, canceling, polling and editing never add an order to
    the store nor drop one: the store has as many orders after any run of
    the module's turns as before. *)
Theorem store_size_is_kept (actions : list action) (s : State) :
  length (pendingOrdersData (run actions s)) = length (pendingOrdersData s).
Proof using arraySort_Permutation.
  revert s. induction actions as [|a actions IH]; intros s; simpl.
  - reflexivity.
  - rewrite IH. apply perform_length.
Qed.

(** *** Execute and cancel, settled *)

Lemma startAutoRefresh_running (s : State) :
  is_Some (autoRefreshTimer (startAutoRefresh s)).
Proof.
  unfold startAutoRefresh.
  destruct (autoRefreshTimer s) eqn:E; simpl; [rewrite E|]; eauto.
Qed.

(** X4: once the gateway has accepted an execute or a cancel, the poll
    timer is running, whether or not the order was found in the store;
    after a rejected one the timer is as it was. *)
Theorem timer_runs_after_accepted_request
    (now : float) (orderId : value) (s : State) :
  (forall result,
      is_Some (autoRefreshTimer
                 (executeOrderById_settle now orderId (Resolved result) s)))
  /\ (forall result,
        is_Some (autoRefreshTimer
                   (cancelOrderById_settle now orderId (Resolved result) s)))
  /\ (forall message,
        autoRefreshTimer
          (executeOrderById_settle now orderId (Rejected message) s)
        = autoRefreshTimer s
        /\ autoRefreshTimer
             (cancelOrderById_settle now orderId (Rejected message) s)
           = autoRefreshTimer s).
Proof.
  repeat split; try reflexivity; intros result; apply startAutoRefresh_running.
Qed.

Lemma findIndex_None {A : Type} (p : A -> bool) (l : list A) :
  findIndex p l = None -> Forall (fun x => p x = false) l.
Proof.
  induction l as [|x l IH]; simpl; [constructor|].
  destruct (p x) eqn:Px; [discriminate|].
  destruct (findIndex p l); simpl; [discriminate|].
  intros _. constructor; auto.
Qed.

Lemma alter_is_insert {A : Type} (f : A -> A) (l : list A) (i : nat) (x : A) :
  l !! i = Some x -> alter f i l = <[i := f x]> l.
Proof.
  revert i. induction l as [|y l IH]; intros [|i]; simpl; try discriminate.
  - now intros [= ->].
  - intros H. f_equal. now apply IH.
Qed.

Lemma markProcessing_marked (result : executeResult) (o : order) :
  markedProcessing result o (markProcessing result o).
Proof using Type.
  clear. unfold markedProcessing, markProcessing, status, get, ibFields.
  destruct (execution_details result) as [details|].
  - split; [|split; [|split]].
    + now rewrite !lookup_insert_ne, lookup_insert_eq by discriminate.
    + now rewrite !lookup_insert_ne, lookup_insert_eq by discriminate.
    + intros k Hk. simpl in Hk.
      destruct Hk as [<-|[<-|[<-|[<-|[<-|[]]]]]];
        rewrite ?lookup_insert_ne by discriminate;
        now rewrite lookup_insert_eq.
    + intros k H1 H2 H3. simpl in H3.
      now rewrite !lookup_insert_ne
        by (intros E; first [congruence | apply H3; rewrite <- E; tauto]).
  - split; [|split; [|split; [|split]]].
    + now rewrite !lookup_insert_ne, lookup_insert_eq by discriminate.
    + now rewrite !lookup_insert_ne, lookup_insert_eq by discriminate.
    + now rewrite !lookup_insert_ne, lookup_insert_eq by discriminate.
    + now rewrite lookup_insert_eq.
    + intros k H1 H2 H3 H4. now rewrite !lookup_insert_ne by congruence.
Qed.

(** X5: a settled execute marks the first order whose [id] is loosely
    equal to the identifier, and only that one (the table's sort then
    rearranges the store).  The order it marks becomes [processing] and
    [executed]; with [execution_details] in the answer its five gateway
    fields become the details', undefined where the details lack one, and
    without them its identifier falls back to the answer's or to
    [Unknown] and its gateway status is [Submitted]; its other fields
    stay.  When no order has the identifier the store is untouched, and
    the success alert is shown all the same. *)
Theorem execute_marks_one_order
    (now : float) (orderId : value) (result : executeResult) (s : State) :
  (forall i o,
      findIndex (fun o => looseEq (get o "id") orderId) (pendingOrdersData s)
      = Some i ->
      pendingOrdersData s !! i = Some o ->
      exists o',
        Permutation
          (pendingOrdersData
             (executeOrderById_settle now orderId (Resolved result) s))
          (<[i := o']> (pendingOrdersData s))
        /\ markedProcessing result o o')
  /\ (Forall (fun o => looseEq (get o "id") orderId = false)
             (pendingOrdersData s) ->
      pendingOrdersData
        (executeOrderById_settle now orderId (Resolved result) s)
      = pendingOrdersData s)
  /\ trace (executeOrderById_settle now orderId (Resolved result) s)
     = trace s ++ [Alert "success" (OrderSent (ib_order_id result))].
Proof using arraySort_Permutation.
  unfold executeOrderById_settle.
  rewrite (proj1 (startAutoRefresh_frame _)).
  rewrite (proj2 (proj2 (proj2 (startAutoRefresh_frame _)))). simpl.
  split; [|split].
  - intros i o Hi Ho. rewrite Hi. exists (markProcessing result o).
    split; [|apply markProcessing_marked].
    rewrite <- (alter_is_insert (markProcessing result) _ _ _ Ho).
    exact (updatePendingOrdersTable_Permutation now
             (setPending
                (alter (markProcessing result) i (pendingOrdersData s)) s)).
  - intros Hnone.
    destruct (findIndex _ _) as [i|] eqn:Hi; [|reflexivity].
    destruct (findIndex_Some _ _ _ Hi) as (o & Ho & Po & _).
    rewrite Forall_forall in Hnone.
    rewrite (Hnone o) in Po; [discriminate|].
    eapply list_elem_of_lookup_2; eauto.
  - destruct (findIndex _ _); [|reflexivity].
    now rewrite (proj2 (proj2 (proj2 (updatePendingOrdersTable_frame now _)))).
Qed.

(** X6: when the gateway rejects the cancel request, [cancelOrderById]
    leaves both stores, the timer and the summary as they were; its whole
    effect is the one request followed by a danger alert that carries the
    error's message. *)
Theorem cancelOrderById_gateway_error
    (now : float) (orderId message : value) (s : State) :
  pendingOrdersData (cancelOrderById now orderId (Rejected message) s)
  = pendingOrdersData s
  /\ filledOrdersData (cancelOrderById now orderId (Rejected message) s)
     = filledOrdersData s
  /\ autoRefreshTimer (cancelOrderById now orderId (Rejected message) s)
     = autoRefreshTimer s
  /\ intervals (cancelOrderById now orderId (Rejected message) s)
     = intervals s
  /\ weeklySummary (cancelOrderById now orderId (Rejected message) s)
     = weeklySummary s
  /\ trace (cancelOrderById now orderId (Rejected message) s)
     = trace s ++ [Request (ReqCancelOrder orderId);
                   Alert "danger" (CancelError message)].
Proof.
  repeat split; try reflexivity. simpl. now rewrite <- app_assoc.
Qed.

Lemma markCanceled_fields (result : cancelResult) (o : order) :
  status (markCanceled result o)
  = (if strictEq (ib_status result) (Str "PendingCancel")
     then Str "canceling" else Str "canceled")
  /\ get (markCanceled result o) "ib_status"
     = (if truthy (ib_status result) then ib_status result
        else get o "ib_status")
  /\ (forall k, k <> "status" -> k <> "ib_status" ->
      get (markCanceled result o) k = get o k).
Proof.
  unfold markCanceled, status, get.
  destruct (truthy (ib_status result)); repeat split;
    try (intros k H1 H2);
    rewrite ?lookup_insert_eq, ?lookup_insert_ne by congruence;
    rewrite ?lookup_insert_eq, ?lookup_insert_ne by congruence;
    reflexivity.
Qed.

(** X7: a settled cancel rewrites the first order whose [id] is loosely
    equal to the identifier, and only that one (the table's sort then
    rearranges the store).  The order it rewrites becomes [canceling] when
    the gateway answers [PendingCancel] and [canceled] for any other
    answer, a missing [ib_status] included; its [ib_status] takes the
    answer's when that is truthy and stays otherwise; its other fields
    stay. *)
Theorem cancel_marks_one_order
    (now : float) (orderId : value) (result : cancelResult) (s : State)
    (i : nat) (o : order) :
  findIndex (fun o => looseEq (get o "id") orderId) (pendingOrdersData s)
  = Some i ->
  pendingOrdersData s !! i = Some o ->
  exists o',
    Permutation
      (pendingOrdersData
         (cancelOrderById_settle now orderId (Resolved result) s))
      (<[i := o']> (pendingOrdersData s))
    /\ status o'
       = (if strictEq (ib_status result) (Str "PendingCancel")
          then Str "canceling" else Str "canceled")
    /\ get o' "ib_status"
       = (if truthy (ib_status result) then ib_status result
          else get o "ib_status")
    /\ (forall k, k <> "status" -> k <> "ib_status" -> get o' k = get o k).
Proof using arraySort_Permutation.
  intros Hi Ho. exists (markCanceled result o).
  split; [|apply markCanceled_fields].
  unfold cancelOrderById_settle.
  rewrite (proj1 (startAutoRefresh_frame _)). simpl. rewrite Hi.
  rewrite (updatePendingOrdersTable_Permutation now (setPending _ s)). simpl.
  now rewrite (alter_is_insert _ _ _ _ Ho).
Qed.

(** *** The poll, settled *)

Lemma checkOrdersStatus_finish_frame (s : State) :
  pendingOrdersData (checkOrdersStatus_finish s) = pendingOrdersData s
  /\ filledOrdersData (checkOrdersStatus_finish s) = filledOrdersData s
  /\ trace (checkOrdersStatus_finish s) = trace s
  /\ autoRefreshTimer (checkOrdersStatus_finish s)
     = if hasTransient (pendingOrdersData s) then autoRefreshTimer s else None.
Proof.
  unfold checkOrdersStatus_finish.
  destruct (hasTransient (pendingOrdersData s)); [now repeat split|].
  destruct (stopAutoRefresh_frame s) as (-> & -> & _ & ->).
  repeat split. unfold stopAutoRefresh.
  destruct (autoRefreshTimer s) eqn:E; [reflexivity | exact E].
Qed.

(** X8: when some order is in flight and the status check fails or brings
    nothing to merge (a rejection, a null answer, a falsy [success],
    missing or empty [updated_orders]), the poll's only effect is the
    request it sent: no alert, no change to the stores, and the timer
    keeps running. *)
Theorem poll_without_news
    (now : float) (resp : outcome (option statusResult))
    (filled : outcome (option (list order))) (s : State) :
  hasTransient (pendingOrdersData s) = true ->
  withoutNews resp = true ->
  checkOrdersStatus now resp filled s = emit (Request ReqCheckOrderStatus) s.
Proof.
  intros Hfly Hnone. unfold checkOrdersStatus, checkOrdersStatus_call.
  rewrite Hfly. unfold checkOrdersStatus_settle.
  destruct resp as [[result|]|m]; try reflexivity.
  simpl in Hnone. destruct (truthy (success result)); [|reflexivity].
  destruct (updated_orders result) as [[|u us]|]; try reflexivity.
  discriminate.
Qed.

Lemma loadFilledOrders_settle_frame
    (now : float) (resp : outcome (option (list order))) (s : State) :
  pendingOrdersData (loadFilledOrders_settle now resp s) = pendingOrdersData s
  /\ autoRefreshTimer (loadFilledOrders_settle now resp s)
     = autoRefreshTimer s.
Proof.
  destruct resp as [[orders|]|m]; simpl; try (now split).
  destruct (updateFilledOrdersTable_frame now (setFilled
              (List.filter
                 (fun o => strictEq (get o "status") (Str "executed")
                           && truthy (get o "avg_fill_price")) orders) s))
    as (-> & _ & -> & _).
  now split.
Qed.

(** X9: however a poll goes, the timer afterwards is stopped when no
    order of the store is left processing or canceling, and is what it
    was otherwise. *)
Theorem poll_stops_timer_when_idle
    (now : float) (resp : outcome (option statusResult))
    (filled : outcome (option (list order))) (s : State) :
  autoRefreshTimer (checkOrdersStatus now resp filled s)
  = if hasTransient (pendingOrdersData (checkOrdersStatus now resp filled s))
    then autoRefreshTimer s else None.
Proof.
  unfold checkOrdersStatus, checkOrdersStatus_call.
  destruct (hasTransient (pendingOrdersData s)) eqn:Hfly.
  - unfold checkOrdersStatus_settle.
    destruct resp as [[result|]|m]; simpl; try now rewrite Hfly.
    destruct (truthy (success result)); simpl; [|now rewrite Hfly].
    destruct (updated_orders result) as [[|u us]|]; simpl;
      try now rewrite Hfly.
    destruct (mergeUpdates (u :: us) (pendingOrdersData s)) as [orders flag].
    set (s1 := updatePendingOrdersTable now
                 (setPending orders (emit (Request ReqCheckOrderStatus) s))).
    assert (T1 : autoRefreshTimer s1 = autoRefreshTimer s).
    { unfold s1.
      now rewrite (proj1 (proj2 (updatePendingOrdersTable_frame now _))). }
    destruct flag.
    + unfold checkOrdersStatus_reloaded.
      destruct (checkOrdersStatus_finish_frame
                  (loadFilledOrders_settle now filled
                     (loadFilledOrders_call s1))) as (-> & _ & _ & ->).
      destruct (loadFilledOrders_settle_frame now filled
                  (loadFilledOrders_call s1)) as (-> & ->).
      simpl. now rewrite T1.
    + destruct (checkOrdersStatus_finish_frame s1) as (-> & _ & _ & ->).
      now rewrite T1.
  - destruct (stopAutoRefresh_frame s) as (-> & _).
    rewrite Hfly. unfold stopAutoRefresh.
    destruct (autoRefreshTimer s) eqn:E; [reflexivity | exact E].
Qed.

Lemma mergeUpdate_flag (acc : list order * bool) (updatedOrder : order) :
  snd (mergeUpdate acc updatedOrder) = true ->
  snd acc = true \/ get updatedOrder "status" = Str "executed".
Proof.
  destruct acc as [orders flag]. unfold mergeUpdate.
  destruct (findIndex _ orders) as [i|]; [|now left].
  destruct (orders !! i) as [cur|]; [|now left].
  simpl. intros H. apply orb_true_iff in H as [H|H]; [now left|].
  apply andb_true_iff in H as [_ H]. right. now apply strictEq_Str.
Qed.

Lemma mergeUpdates_flag (updated : list order) (acc : list order * bool) :
  snd (fold_left mergeUpdate updated acc) = true ->
  snd acc = true
  \/ Exists (fun f => get f "status" = Str "executed") updated.
Proof.
  revert acc. induction updated as [|u us IH]; intros acc; cbn [fold_left].
  - now left.
  - intros H. destruct (IH _ H) as [H1|H1].
    + destruct (mergeUpdate_flag _ _ H1) as [H2|H2]; [now left|].
      right. now constructor.
    + right. now constructor 2.
Qed.

Lemma reload_trace
    (now : float) (resp : outcome (option statusResult)) (s : State) :
  trace (fst (checkOrdersStatus_settle now resp s)) = trace s
  \/ trace (fst (checkOrdersStatus_settle now resp s))
     = trace s ++ [Request (ReqFetchPendingOrders true)].
Proof.
  unfold checkOrdersStatus_settle.
  destruct resp as [[result|]|m]; simpl; auto.
  destruct (truthy (success result)); simpl; auto.
  destruct (updated_orders result) as [[|u us]|]; simpl; auto.
  destruct (mergeUpdates (u :: us) (pendingOrdersData s)) as [orders flag].
  destruct flag; simpl.
  - right.
    now rewrite (proj2 (proj2 (proj2 (updatePendingOrdersTable_frame now _)))).
  - left.
    destruct (checkOrdersStatus_finish_frame
                (updatePendingOrdersTable now (setPending orders s)))
      as (_ & _ & -> & _).
    now rewrite (proj2 (proj2 (proj2 (updatePendingOrdersTable_frame now _)))).
Qed.

(** X10: a settled status check sends at most one request, the fetch of
    the filled orders, and sends it only when one of the fragments it
    merged says [executed]. *)
Theorem reload_only_on_execution
    (now : float) (resp : outcome (option statusResult)) (s : State) :
  trace (fst (checkOrdersStatus_settle now resp s))
  = trace s
    ++ (if snd (checkOrdersStatus_settle now resp s)
        then [Request (ReqFetchPendingOrders true)] else [])
  /\ (snd (checkOrdersStatus_settle now resp s) = true ->
      exists result updated,
        resp = Resolved (Some result)
        /\ updated_orders result = Some updated
        /\ Exists (fun f => get f "status" = Str "executed") updated).
Proof.
  unfold checkOrdersStatus_settle.
  destruct resp as [[result|]|m]; simpl;
    try (split; [now rewrite app_nil_r | discriminate]).
  destruct (truthy (success result)); simpl;
    try (split; [now rewrite app_nil_r | discriminate]).
  destruct (updated_orders result) as [[|u us]|] eqn:Hup; simpl;
    try (split; [now rewrite app_nil_r | discriminate]).
  pose proof (mergeUpdates_flag (u :: us) (pendingOrdersData s, false)) as Hm.
  fold (mergeUpdates (u :: us) (pendingOrdersData s)) in Hm.
  destruct (mergeUpdates (u :: us) (pendingOrdersData s)) as [orders flag].
  destruct flag; simpl.
  - split.
    + now rewrite (proj2 (proj2 (proj2 (updatePendingOrdersTable_frame now _)))).
    + intros _. exists result, (u :: us). repeat split; auto.
      destruct (Hm eq_refl) as [H|H]; [discriminate | exact H].
  - split; [|discriminate].
    destruct (checkOrdersStatus_finish_frame
                (updatePendingOrdersTable now (setPending orders s)))
      as (_ & _ & -> & _).
    rewrite (proj2 (proj2 (proj2 (updatePendingOrdersTable_frame now _)))).
    simpl. now rewrite app_nil_r.
Qed.

(** X11: merging a fragment rewrites the first order whose [id] is
    loosely equal to the fragment's, and no other; in that order every
    field the fragment has takes the fragment's value and every field it
    lacks keeps its own.  A fragment no order answers to leaves the store
    as it is. *)
Theorem merge_rewrites_first_match
    (updatedOrder : order) (orders : list order) :
  (Forall (fun o => looseEq (get o "id") (get updatedOrder "id") = false)
          orders ->
   merged updatedOrder orders = orders)
  /\ (forall i current,
        findIndex (fun o => looseEq (get o "id") (get updatedOrder "id"))
                  orders = Some i ->
        orders !! i = Some current ->
        (exists o',
            merged updatedOrder orders !! i = Some o'
            /\ forall k,
                 get o' k
                 = match updatedOrder !! k with
                   | Some v => v
                   | None => get current k
                   end)
        /\ forall j, j <> i ->
             merged updatedOrder orders !! j = orders !! j).
Proof.
  unfold merged, mergeUpdate. split.
  - intros Hnone.
    destruct (findIndex _ orders) as [i|] eqn:Hi; [|reflexivity].
    destruct (findIndex_Some _ _ _ Hi) as (o & Ho & Po & _).
    rewrite Forall_forall in Hnone.
    rewrite (Hnone o) in Po; [discriminate|].
    eapply list_elem_of_lookup_2; eauto.
  - intros i current Hi Hcur. rewrite Hi, Hcur. simpl. split.
    + exists (updatedOrder ∪ current). split.
      * apply list_lookup_insert_eq. eapply lookup_lt_Some; eauto.
      * intros k. apply get_union.
    + intros j Hj. apply list_lookup_insert_ne. congruence.
Qed.

(** *** A quantity, sent *)

(** X12: when the store has an order whose [id] is strictly equal to the
    parsed identifier, [updateOrderQuantity] writes the quantity into the
    first such order before the PUT leaves and never takes it back: the
    store afterwards is the same whether the PUT succeeds, answers with an
    error status or fails outright, and what differs is the one alert.
    When no order has that id, nothing happens at all. *)
Theorem quantity_update_is_not_rolled_back
    (orderId : value) (quantity : float) (resp : outcome httpResponse)
    (s : State) :
  (forall i,
      findIndex (fun o => strictEq (get o "id") (Num (parseInt true orderId)))
                (pendingOrdersData s) = Some i ->
      pendingOrdersData (updateOrderQuantity orderId quantity resp s)
      = alter (fun o => <["quantity" := Num quantity]> o) i
              (pendingOrdersData s)
      /\ exists level n,
           trace (updateOrderQuantity orderId quantity resp s)
           = trace s ++ [Request (ReqPutQuantity orderId quantity);
                         Alert level n]
           /\ (level = "success"
               <-> exists response,
                     resp = Resolved response /\ ok response = true
                     /\ exists u, body response = Resolved u))
  /\ (findIndex (fun o => strictEq (get o "id") (Num (parseInt true orderId)))
                (pendingOrdersData s) = None ->
      updateOrderQuantity orderId quantity resp s = s).
Proof.
  unfold updateOrderQuantity, updateOrderQuantity_call. split.
  - intros i Hi. rewrite Hi. unfold updateOrderQuantity_settle.
    destruct resp as [response|m].
    + destruct (body response) as [u|m] eqn:Hb.
      * destruct (ok response) eqn:Hok; simpl.
        -- split; [reflexivity|]. eexists _, _. rewrite <- app_assoc.
           split; [reflexivity|]. split; [|reflexivity].
           intros _. exists response. repeat split; eauto.
        -- split; [reflexivity|]. eexists _, _. rewrite <- app_assoc.
           split; [reflexivity|]. split; [discriminate|].
           intros (r & [= <-] & Hr & _). congruence.
      * simpl. split; [reflexivity|]. eexists _, _. rewrite <- app_assoc.
        split; [reflexivity|]. split; [discriminate|].
        intros (r & [= <-] & _ & u & Hu). congruence.
    + simpl. split; [reflexivity|]. eexists _, _. rewrite <- app_assoc.
      split; [reflexivity|]. split; [discriminate|].
      intros (r & Hr & _). discriminate.
  - intros Hn. now rewrite Hn.
Qed.

(** *** What a turn may emit *)

Lemma perform_emits (a : action) (s : State) :
  exists evs,
    trace (perform a s) = trace s ++ evs
    /\ Forall (mayEmit a) evs
    /\ length evs <= 1.
Proof.
  assert (Hnil : forall t, t = trace s ->
            exists evs, t = trace s ++ evs
                        /\ Forall (mayEmit a) evs /\ length evs <= 1).
  { intros t E. exists []. rewrite app_nil_r. repeat split; auto. }
  assert (Hone : forall t e, t = trace s ++ [e] -> mayEmit a e ->
            exists evs, t = trace s ++ evs
                        /\ Forall (mayEmit a) evs /\ length evs <= 1).
  { intros t e E He. exists [e]. repeat split; auto. }
  destruct a as [id|now id resp|id|now id resp| |now resp|now resp|id typed|q resp];
    simpl perform.
  - eapply Hone; [reflexivity|]. reflexivity.
  - unfold executeOrderById_settle. destruct resp as [result|m].
    + eapply Hone; [|reflexivity].
      rewrite (proj2 (proj2 (proj2 (startAutoRefresh_frame _)))). simpl.
      destruct (findIndex _ _); [|reflexivity].
      now rewrite (proj2 (proj2 (proj2 (updatePendingOrdersTable_frame now _)))).
    + eapply Hone; [reflexivity|]. reflexivity.
  - eapply Hone; [reflexivity|]. reflexivity.
  - unfold cancelOrderById_settle. destruct resp as [result|m].
    + eapply Hone; [|reflexivity].
      rewrite (proj2 (proj2 (proj2 (startAutoRefresh_frame _)))). simpl.
      destruct (findIndex _ _); [|reflexivity].
      now rewrite (proj2 (proj2 (proj2 (updatePendingOrdersTable_frame now _)))).
    + eapply Hone; [reflexivity|]. reflexivity.
  - unfold checkOrdersStatus_call. destruct (hasTransient _).
    + eapply Hone; [reflexivity|]. reflexivity.
    + apply Hnil. apply stopAutoRefresh_frame.
  - destruct (reload_trace now resp s) as [E|E].
    + apply Hnil. exact E.
    + eapply Hone; [exact E|]. reflexivity.
  - unfold checkOrdersStatus_reloaded.
    rewrite (proj1 (proj2 (proj2 (checkOrdersStatus_finish_frame _)))).
    destruct resp as [[orders|]|m]; simpl.
    + apply Hnil.
      now rewrite (proj2 (proj2 (proj2 (proj2
                     (updateFilledOrdersTable_frame now _))))).
    + now apply Hnil.
    + eapply Hone; [reflexivity|]. reflexivity.
  - unfold onQuantityInput.
    destruct (quantityAccepted id (parseIntString true typed)) eqn:Hacc; simpl.
    + unfold updateOrderQuantity_call.
      destruct (findIndex _ _); [|now apply Hnil].
      eapply Hone; [reflexivity|]. split; [reflexivity|].
      unfold quantityAccepted in Hacc.
      now apply andb_true_iff in Hacc as [_ Hacc].
    + destruct (findFirst _ _); now apply Hnil.
  - unfold updateOrderQuantity_settle.
    destruct resp as [response|m];
      [destruct (body response); [destruct (ok response)|]|];
      (eapply Hone; [reflexivity|]); simpl; eauto.
Qed.

(** X13: every quantity request the module sends carries a quantity above
    zero: if that holds of the trace so far, it holds after any run of
    the module's turns. *)
Theorem quantity_requests_are_positive (actions : list action) (s : State) :
  Forall positivePut (trace s) ->
  Forall positivePut (trace (run actions s)).
Proof.
  revert s. induction actions as [|a actions IH]; intros s H; simpl.
  - exact H.
  - apply IH. destruct (perform_emits a s) as (evs & -> & Hev & _).
    apply Forall_app. split; [exact H|].
    eapply Forall_impl; [exact Hev|].
    intros e He. destruct a as [| ? ? []| | ? ? []| | | | |]; simpl in He;
      try (subst e; exact I).
    + destruct He as [-> Hpos]. exact Hpos.
    + destruct He as (level & n & ->). exact I.
Qed.

(** X14: the background poll never sends an order to the gateway: over
    any run of its own turns (the tick, the settled status check, the
    settled reload) the trace grows by status checks, fetches of the
    filled orders and alerts that such a fetch failed, and by nothing
    else. *)
Theorem poll_only_checks_and_reloads (actions : list action) (s : State) :
  forallb pollTurn actions = true ->
  exists evs,
    trace (run actions s) = trace s ++ evs /\ Forall pollEvent evs.
Proof.
  revert s. induction actions as [|a actions IH]; intros s H; simpl.
  - exists []. now rewrite app_nil_r.
  - simpl in H. apply andb_true_iff in H as [Ha Hrest].
    destruct (IH (perform a s) Hrest) as (evs2 & E2 & P2).
    destruct (perform_emits a s) as (evs1 & E1 & P1 & _).
    exists (evs1 ++ evs2). rewrite E2, E1, app_assoc. split; [reflexivity|].
    apply Forall_app. split; [|exact P2].
    eapply Forall_impl; [exact P1|].
    intros e He. unfold pollEvent.
    destruct a; simpl in Ha; try discriminate; simpl in He; auto.
Qed.

(** *** Loading the store *)

(** X15: [loadPendingOrders] replaces the store by the orders of the
    answer, rearranged by the table's sort, whatever the store held
    before; an answer without orders keeps the store; either way the
    filled orders are fetched next.  When the pending fetch fails the load
    ends there: one alert, no fetch of the filled orders, nothing
    changed. *)
Theorem loadPendingOrders_outcomes
    (now : float) (filled : outcome (option (list order))) (s : State) :
  (forall orders,
      Permutation
        (pendingOrdersData
           (loadPendingOrders now (Resolved (Some orders)) filled s))
        orders)
  /\ pendingOrdersData (loadPendingOrders now (Resolved None) filled s)
     = pendingOrdersData s
  /\ (forall answer, exists evs,
        trace (loadPendingOrders now (Resolved answer) filled s)
        = trace s ++ [Request (ReqFetchPendingOrders false);
                      Request (ReqFetchPendingOrders true)] ++ evs)
  /\ (forall message,
        loadPendingOrders now (Rejected message) filled s
        = emit (Alert "danger" LoadPendingError)
            (emit (Request (ReqFetchPendingOrders false)) s)).
Proof using arraySort_Permutation.
  assert (Hload : forall s1,
            pendingOrdersData (loadFilledOrders now filled s1)
            = pendingOrdersData s1
            /\ exists evs,
                 trace (loadFilledOrders now filled s1)
                 = trace s1 ++ Request (ReqFetchPendingOrders true) :: evs).
  { intros s1. unfold loadFilledOrders.
    destruct (loadFilledOrders_settle_frame now filled
                (loadFilledOrders_call s1)) as (-> & _).
    split; [reflexivity|].
    destruct filled as [[orders|]|m]; simpl.
    - exists [].
      now rewrite (proj2 (proj2 (proj2 (proj2
                     (updateFilledOrdersTable_frame now _))))).
    - now exists [].
    - eexists. now rewrite <- app_assoc. }
  repeat split.
  - intros orders. unfold loadPendingOrders.
    rewrite (proj1 (Hload _)).
    apply (updatePendingOrdersTable_Permutation now (setPending orders _)).
  - unfold loadPendingOrders. now rewrite (proj1 (Hload _)).
  - intros answer. unfold loadPendingOrders.
    destruct (Hload (match answer with
                     | Some orders =>
                         updatePendingOrdersTable now
                           (setPending orders (loadPendingOrders_call s))
                     | None => loadPendingOrders_call s
                     end)) as (_ & evs & ->).
    exists evs. destruct answer as [orders|].
    + rewrite (proj2 (proj2 (proj2 (updatePendingOrdersTable_frame now _)))).
      simpl. now rewrite <- app_assoc.
    + simpl. now rewrite <- app_assoc.
Qed.

(** *** Date strings *)

Lemma decimalDigit_value (c : ascii) :
  decimalDigit c = true ->
  digitValue c = Some (N_of_ascii c - 48)%N /\ (N_of_ascii c - 48 < 10)%N.
Proof.
  unfold decimalDigit, digitValue. intros H. rewrite H. split; [reflexivity|].
  apply andb_true_iff in H as [H1 H2].
  apply N.leb_le in H1, H2. lia.
Qed.

Lemma decimalDigit_head (c : ascii) (r : string) :
  decimalDigit c = true ->
  trimStart (String c r) = String c r
  /\ stripSign (String c r) = (false, String c r).
Proof.
  destruct c as [[] [] [] [] [] [] [] []]; intros H;
    try discriminate H; split; reflexivity.
Qed.

Lemma decimalDigit_no_hex (c1 c2 : ascii) (r : string) :
  decimalDigit c2 = true ->
  stripHexPrefix (String c1 (String c2 r)) = (10%N, String c1 (String c2 r)).
Proof.
  destruct c2 as [[] [] [] [] [] [] [] []]; intros H; try discriminate H;
    destruct c1 as [[] [] [] [] [] [] [] []]; reflexivity.
Qed.

Lemma digitsPrefix_digit (c : ascii) (r : string) (acc : option N) :
  decimalDigit c = true ->
  digitsPrefix 10 (String c r) acc
  = digitsPrefix 10 r (Some (default 0 acc * 10 + (N_of_ascii c - 48)))%N.
Proof.
  intros H. destruct (decimalDigit_value c H) as [Hv Hlt].
  cbn [digitsPrefix]. rewrite Hv.
  now apply N.ltb_lt in Hlt as ->.
Qed.

Lemma parseInt_year (c1 c2 c3 c4 : ascii) (rest : string) :
  decimalDigit c1 = true -> decimalDigit c2 = true ->
  decimalDigit c3 = true -> decimalDigit c4 = true ->
  exists n,
    (n < 10000)%N
    /\ parseIntString false
         (String c1 (String c2 (String c3 (String c4 (String "-" rest)))))
       = ofN n.
Proof.
  intros H1 H2 H3 H4.
  exists ((((N_of_ascii c1 - 48) * 10 + (N_of_ascii c2 - 48)) * 10
           + (N_of_ascii c3 - 48)) * 10 + (N_of_ascii c4 - 48))%N.
  split.
  - pose proof (proj2 (decimalDigit_value c1 H1)).
    pose proof (proj2 (decimalDigit_value c2 H2)).
    pose proof (proj2 (decimalDigit_value c3 H3)).
    pose proof (proj2 (decimalDigit_value c4 H4)). lia.
  - unfold parseIntString.
    destruct (decimalDigit_head c1
                (String c2 (String c3 (String c4 (String "-" rest)))) H1)
      as [-> ->].
    rewrite (decimalDigit_no_hex c1 c2 _ H2).
    rewrite !digitsPrefix_digit by assumption.
    reflexivity.
Qed.

Lemma lowYear_table :
  forallb lowYear (List.map N.of_nat (seq 0 (N.to_nat 10000))) = true.
Proof. vm_compute. reflexivity. Qed.

Lemma lowYear_below (n : N) : (n < 10000)%N -> lowYear n = true.
Proof.
  intros H. pose proof lowYear_table as T.
  rewrite forallb_forall in T. apply T.
  apply in_map_iff. exists (N.to_nat n). split; [apply N2Nat.id|].
  apply in_seq. lia.
Qed.

(** X16: a date string that opens with four digits and a dash, as ISO
    8601 dates do, is read as a Unix timestamp of as many seconds or
    milliseconds as its year says; that is always within a day of the
    epoch, so [formatDate] renders every such string as the empty
    string. *)
Theorem formatDate_of_iso_string (c1 c2 c3 c4 : ascii) (rest : string) :
  decimalDigit c1 = true -> decimalDigit c2 = true ->
  decimalDigit c3 = true -> decimalDigit c4 = true ->
  formatDate
    (Str (String c1 (String c2 (String c3 (String c4 (String "-" rest))))))
  = "".
Proof.
  intros H1 H2 H3 H4.
  destruct (parseInt_year c1 c2 c3 c4 rest H1 H2 H3 H4) as (n & Hn & Hp).
  pose proof (lowYear_below n Hn) as Hlow. unfold lowYear in Hlow.
  apply andb_true_iff in Hlow as [Hlow Hms].
  apply andb_true_iff in Hlow as [Hnan Hsec].
  unfold formatDate, isUnixTimestamp, resolvedTimestamp, JS.parseInt.
  cbn [truthy JS.ToString isNumber String.eqb negb orb].
  rewrite Hp, Hnan.
  destruct (String.length _ <=? 10)%nat; [now rewrite Hsec | now rewrite Hms].
Qed.

(** *** Orders without a date *)

(** X17: an order whose creation time is missing, zero or not a date is
    never of the current week: a collection of such orders counts no
    weekly order and earns nothing, and when the table shows it the
    summary reads zero throughout. *)
Theorem undated_orders_earn_nothing
    (now : float) (filled : list order) (s : State) :
  Forall (fun o => truthy (createdAt o) = false
                   \/ PrimFloat.is_nan (DateValue (createdAt o)) = true)
         filled ->
  weeklyOrders now filled = []
  /\ totalEarnings now filled = 0%float
  /\ (filledTable s = true -> filled <> [] ->
      weeklySummary (updateFilledOrdersTable now (setFilled filled s))
      = {| weekly_earnings_total := formatCurrency (Num 0);
           weekly_order_count := 0;
           weekly_average_premium := formatCurrency (Num 0) |}).
Proof.
  intros H.
  assert (Hout : Forall
                   (fun o => isWithinCurrentWeek now (createdAt o) = false)
                   filled).
  { eapply Forall_impl; [exact H|]. intros o [Ho|Ho];
      unfold isWithinCurrentWeek; rewrite Ho; reflexivity || idtac.
    simpl. now destruct (truthy (createdAt o)). }
  split; [now apply weeklyOrders_none|].
  split; [now apply totalEarnings_none|].
  intros Htable Hne.
  now apply (updateFilledOrdersTable_none_this_week now (setFilled filled s)).
Qed.

(** *** When the timer starts *)

Lemma loadFilledOrders_timer
    (now : float) (filled : outcome (option (list order))) (s : State) :
  autoRefreshTimer (loadFilledOrders now filled s) = autoRefreshTimer s
  /\ pendingOrdersData (loadFilledOrders now filled s) = pendingOrdersData s.
Proof.
  unfold loadFilledOrders.
  destruct (loadFilledOrders_settle_frame now filled (loadFilledOrders_call s))
    as (-> & ->).
  now split.
Qed.

(** X18: the page load never starts the poll timer.  The listener tests
    the store right after it has sent the fetch, when the store is still
    empty, so whatever the fetches bring afterwards, orders in flight
    included, the timer is as stopped after the load as it was before. *)
Theorem page_load_never_starts_timer
    (now : float) (pending filled : outcome (option (list order)))
    (s : State) :
  pendingOrdersData s = [] ->
  autoRefreshTimer s = None ->
  autoRefreshTimer (onDOMContentLoaded now pending filled s) = None
  /\ onDOMContentLoaded now pending filled s
     = loadPendingOrders now pending filled s.
Proof.
  intros Hempty Hoff.
  assert (E : onDOMContentLoaded now pending filled s
              = loadPendingOrders now pending filled s).
  { unfold onDOMContentLoaded, loadPendingOrders, loadPendingOrders_settle.
    simpl. rewrite Hempty. simpl. reflexivity. }
  split; [|exact E]. rewrite E. unfold loadPendingOrders.
  destruct pending as [answer|m]; simpl; [|exact Hoff].
  rewrite (proj1 (loadFilledOrders_timer now filled _)).
  destruct answer as [orders|]; simpl; [|exact Hoff].
  now rewrite (proj1 (proj2 (updatePendingOrdersTable_frame now _))).
Qed.

Lemma stopAutoRefresh_off (s : State) :
  autoRefreshTimer s = None -> autoRefreshTimer (stopAutoRefresh s) = None.
Proof. intros H. unfold stopAutoRefresh. now rewrite H. Qed.

Lemma perform_keeps_timer_off (a : action) (s : State) :
  acceptedRequest a = false ->
  autoRefreshTimer s = None -> autoRefreshTimer (perform a s) = None.
Proof.
  intros Ha Hoff.
  destruct a as [id|now id resp|id|now id resp| |now resp|now resp|id typed|q resp];
    simpl.
  - exact Hoff.
  - destruct resp; [discriminate | exact Hoff].
  - exact Hoff.
  - destruct resp; [discriminate | exact Hoff].
  - unfold checkOrdersStatus_call. destruct (hasTransient _); [exact Hoff|].
    now apply stopAutoRefresh_off.
  - unfold checkOrdersStatus_settle.
    destruct resp as [[result|]|m]; simpl; auto.
    destruct (truthy (success result)); simpl; auto.
    destruct (updated_orders result) as [[|u us]|]; simpl; auto.
    destruct (mergeUpdates (u :: us) (pendingOrdersData s)) as [orders flag].
    assert (T : autoRefreshTimer
                  (updatePendingOrdersTable now (setPending orders s)) = None).
    { now rewrite (proj1 (proj2 (updatePendingOrdersTable_frame now _))). }
    destruct flag; simpl; [exact T|].
    rewrite (proj2 (proj2 (proj2 (checkOrdersStatus_finish_frame _)))).
    now destruct (hasTransient _).
  - unfold checkOrdersStatus_reloaded.
    rewrite (proj2 (proj2 (proj2 (checkOrdersStatus_finish_frame _)))).
    destruct (hasTransient _); [|reflexivity].
    now rewrite (proj2 (loadFilledOrders_settle_frame now resp s)).
  - unfold onQuantityInput. destruct (quantityAccepted _ _); simpl.
    + unfold updateOrderQuantity_call. destruct (findIndex _ _); exact Hoff.
    + destruct (findFirst _ _); exact Hoff.
  - unfold updateOrderQuantity_settle.
    destruct resp as [response|m]; [|exact Hoff].
    destruct (body response); [|exact Hoff].
    destruct (ok response); exact Hoff.
Qed.

(** X19: only an execute or a cancel that the gateway accepted starts the
    poll timer: over any run with no such turn (clicks, rejected
    requests, poll turns, quantity edits) a stopped timer stays
    stopped. *)
Theorem timer_starts_only_on_accepted_request
    (actions : list action) (s : State) :
  forallb (fun a => negb (acceptedRequest a)) actions = true ->
  autoRefreshTimer s = None ->
  autoRefreshTimer (run actions s) = None.
Proof.
  revert s. induction actions as [|a actions IH]; intros s H Hoff; simpl.
  - exact Hoff.
  - simpl in H. apply andb_true_iff in H as [Ha Hrest].
    apply IH; [exact Hrest|].
    apply perform_keeps_timer_off; [|exact Hoff].
    now destruct (acceptedRequest a).
Qed.

End Dashboard.

(** ** The model at work on the sample host *)

Lemma insertBy_Permutation {A : Type} (cmp : A -> A -> float) (x : A)
    (l : list A) :
  Permutation (UTC.insertBy cmp x l) (x :: l).
Proof.
  induction l as [|y l IH]; simpl; [reflexivity|].
  destruct (0 <? cmp x y)%float; [|reflexivity].
  rewrite IH. apply perm_swap.
Qed.

Lemma UTC_arraySort_Permutation {A : Type} (cmp : A -> A -> float)
    (l : list A) :
  Permutation (UTC.arraySort cmp l) l.
Proof.
  unfold UTC.arraySort.
  induction l as [|x l IH]; simpl; [reflexivity|].
  rewrite insertBy_Permutation. now constructor.
Qed.

Lemma hasTransient_iff_witness :
  Forall knownStatus [sampleOrder 1 "pending"; sampleOrder 2 "executed"]
  /\ (hasTransient [sampleOrder 1 "pending"; sampleOrder 2 "executed"] = false
      <-> Forall atRest [sampleOrder 1 "pending"; sampleOrder 2 "executed"]).
Proof.
  assert (H : Forall knownStatus
                [sampleOrder 1 "pending"; sampleOrder 2 "executed"]).
  { constructor; [right; left; reflexivity|].
    constructor; [right; right; left; reflexivity|]. constructor. }
  split; [exact H|].
  exact (proj2 (hasTransient_iff _) H).
Defined.

Local Abbreviation utc_netPremium := (netPremium UTC.StringToNumber).
Local Abbreviation utc_totalEarnings :=
  (totalEarnings UTC.StringToNumber UTC.DateValue UTC.startOfWeek
     UTC.endOfWeek).
Local Abbreviation utc_filledThisWeek :=
  (filledThisWeek UTC.DateValue UTC.startOfWeek UTC.endOfWeek).
Local Abbreviation utc_loadFilledOrders :=
  (loadFilledOrders UTC.StringToNumber UTC.DateValue UTC.startOfWeek
     UTC.endOfWeek UTC.NumberFormatUSD).
Local Abbreviation utc_updateFilledOrdersTable :=
  (updateFilledOrdersTable UTC.StringToNumber UTC.DateValue UTC.startOfWeek
     UTC.endOfWeek UTC.NumberFormatUSD).
Local Abbreviation utc_checkOrdersStatus :=
  (checkOrdersStatus UTC.StringToNumber UTC.DateValue UTC.startOfWeek
     UTC.endOfWeek UTC.NumberFormatUSD UTC.arraySort).
Local Abbreviation utc_executeOrderById :=
  (executeOrderById UTC.StringToNumber UTC.DateValue UTC.startOfWeek
     UTC.endOfWeek UTC.NumberFormatUSD UTC.arraySort).
Local Abbreviation utc_perform :=
  (perform UTC.StringToNumber UTC.NumberToString UTC.DateValue
     UTC.startOfWeek UTC.endOfWeek UTC.NumberFormatUSD UTC.arraySort).
Local Abbreviation utc_run :=
  (run UTC.StringToNumber UTC.NumberToString UTC.DateValue UTC.startOfWeek
     UTC.endOfWeek UTC.NumberFormatUSD UTC.arraySort).
Local Abbreviation utc_onQuantityInput := (onQuantityInput UTC.NumberToString).
Local Abbreviation utc_formatDate :=
  (formatDate UTC.NumberToString UTC.DateValue UTC.DateFullYear
     UTC.DateToLocaleString).

Lemma checkOrdersStatus_idle_witness :
  hasTransient (pendingOrdersData (withPending [sampleOrder 1 "pending"]))
  = false
  /\ trace (utc_checkOrdersStatus sampleNow (Rejected Undefined)
              (Rejected Undefined) (withPending [sampleOrder 1 "pending"]))
     = [].
Proof.
  split; [reflexivity|].
  exact (proj1 (proj2
           (checkOrdersStatus_idle UTC.StringToNumber UTC.DateValue
              UTC.startOfWeek UTC.endOfWeek UTC.NumberFormatUSD UTC.arraySort
              sampleNow (Rejected Undefined) (Rejected Undefined)
              (withPending [sampleOrder 1 "pending"]) eq_refl))).
Defined.

(** *** The weekly figures *)

Lemma sample_fills_this_week :
  utc_filledThisWeek sampleNow firstFill 2.50 1 0.65
  /\ utc_filledThisWeek sampleNow secondFill 1.10 2 0.65.
Proof. repeat split; vm_compute; reflexivity. Qed.

(** C1 as the specification words it fails on its own input: the first
    net premium is not 184.35, the total not 403.70 and the average not
    201.85, even to the cent. *)
Lemma weekly_earnings_figures_off :
  (utc_filledThisWeek sampleNow firstFill 2.50 1 0.65
   /\ utc_filledThisWeek sampleNow secondFill 1.10 2 0.65)
  /\ sameCents (utc_netPremium firstFill) 184.35 = false
  /\ sameCents (utc_totalEarnings sampleNow [firstFill; secondFill]) 403.70
     = false
  /\ sameCents
       (averagePremium 2
          (utc_totalEarnings sampleNow [firstFill; secondFill])) 201.85
     = false.
Proof.
  split; [exact sample_fills_this_week|].
  repeat split; vm_compute; reflexivity.
Qed.

Lemma weekly_earnings_of_two_orders_witness :
  (utc_filledThisWeek sampleNow firstFill 2.50 1 0.65
   /\ utc_filledThisWeek sampleNow secondFill 1.10 2 0.65
   /\ filledTable freshPage = true)
  /\ utc_netPremium firstFill = 249.35%float
  /\ weeklySummary
       (utc_updateFilledOrdersTable sampleNow
          (setFilled [firstFill; secondFill] freshPage))
     = {| weekly_earnings_total := "$468.70";
          weekly_order_count := 2;
          weekly_average_premium := "$234.35" |}.
Proof.
  assert (H1 : utc_filledThisWeek sampleNow firstFill 2.50 1 0.65)
    by (repeat split; vm_compute; reflexivity).
  assert (H2 : utc_filledThisWeek sampleNow secondFill 1.10 2 0.65)
    by (repeat split; vm_compute; reflexivity).
  split; [repeat split; assumption|].
  destruct (weekly_earnings_of_two_orders UTC.StringToNumber UTC.DateValue
              UTC.startOfWeek UTC.endOfWeek UTC.NumberFormatUSD sampleNow
              firstFill secondFill freshPage H1 H2 eq_refl)
    as (N1 & _ & _ & _ & _ & _ & _ & _ & Hsum).
  split; [exact N1|].
  rewrite Hsum. vm_compute. reflexivity.
Defined.

(** *** An empty reload after a full one *)

(** C3 on the code: after the two sample fills have been loaded the
    summary shows them; a reload that brings no filled order empties the
    collection, yet the summary still shows the two orders of the load
    before. *)
Lemma empty_reload_keeps_summary :
  let loaded :=
    loadFilledOrders UTC.StringToNumber UTC.DateValue UTC.startOfWeek
      UTC.endOfWeek UTC.NumberFormatUSD sampleNow
      (Resolved (Some [firstFill; secondFill])) freshPage in
  let reloaded :=
    loadFilledOrders UTC.StringToNumber UTC.DateValue UTC.startOfWeek
      UTC.endOfWeek UTC.NumberFormatUSD sampleNow (Resolved (Some []))
      loaded in
  filledOrdersData loaded = [firstFill; secondFill]
  /\ filledOrdersData reloaded = []
  /\ weeklySummary reloaded
     = {| weekly_earnings_total := "$468.70";
          weekly_order_count := 2;
          weekly_average_premium := "$234.35" |}.
Proof. repeat split; vm_compute; reflexivity. Qed.

(** *** A fragment that says pending *)

(** C2 as the specification words it fails: the poll's merge takes the
    fragment's status as it comes, so a processing order is pending again
    after a fragment that says so. *)
Lemma poll_fragment_revives_pending :
  status <$> pendingOrdersData processingPage = [Str "processing"]
  /\ status
       <$> pendingOrdersData
             (utc_perform (StatusSettled sampleNow revivingAnswer)
                processingPage)
     = [Str "pending"].
Proof. split; vm_compute; reflexivity. Qed.

Lemma sampleRun_statuses :
  status
    <$> pendingOrdersData
          (utc_run sampleRun (withPending [sampleOrder 42 "pending"]))
  = [Str "executed"].
Proof. vm_compute. reflexivity. Qed.

Lemma trackedRun_exactIds :
  exactIds UTC.StringToNumber
    (List.map idOf (pendingOrdersData twoOrdersPage)
     ++ flat_map fragmentIds trackedRun).
Proof.
  intros a b Ha Hb H. vm_compute in Ha, Hb.
  destruct Ha as [<-|[<-|[<-|[]]]]; destruct Hb as [<-|[<-|[<-|[]]]];
    first [reflexivity | vm_compute in H; discriminate H].
Qed.

Lemma twoOrdersPage_NoDup :
  List.NoDup (List.map idOf (pendingOrdersData twoOrdersPage)).
Proof.
  vm_compute. constructor.
  - intros [H|[]]. apply (f_equal (fun v => match v with
                                           | Num x => (x <? 10)%float
                                           | _ => false
                                           end)) in H.
    vm_compute in H. discriminate H.
  - constructor; [intros [] | constructor].
Qed.

Lemma status_never_back_to_pending_witness :
  (exactIds UTC.StringToNumber
     (List.map idOf (pendingOrdersData twoOrdersPage)
      ++ flat_map fragmentIds trackedRun)
   /\ forallb (fun a => negb (saysPending a)) trackedRun = true
   /\ List.NoDup (List.map idOf (pendingOrdersData twoOrdersPage)))
  /\ forall o o',
       In o (pendingOrdersData twoOrdersPage) ->
       In o' (pendingOrdersData (utc_run trackedRun twoOrdersPage)) ->
       idOf o' = idOf o ->
       status o' = Str "pending" -> status o = Str "pending".
Proof.
  split.
  - split; [exact trackedRun_exactIds|].
    split; [reflexivity | exact twoOrdersPage_NoDup].
  - exact (proj2
             (status_never_back_to_pending UTC.StringToNumber
                UTC.NumberToString UTC.DateValue UTC.startOfWeek
                UTC.endOfWeek UTC.NumberFormatUSD UTC.arraySort
                (fun cmp l => UTC_arraySort_Permutation cmp l)
                trackedRun twoOrdersPage trackedRun_exactIds eq_refl)
             twoOrdersPage_NoDup).
Defined.

(** After that run order 7 is processing and order 42 executed. *)
Lemma trackedRun_statuses :
  (fun o => (idOf o, status o))
    <$> pendingOrdersData (utc_run trackedRun twoOrdersPage)
  = [(Num 7, Str "processing"); (Num 42, Str "executed")].
Proof. vm_compute. reflexivity. Qed.

(** *** A rejected execute *)

Lemma executeOrderById_gateway_error_witness :
  forallb (fun a => negb (isExecuteClick a))
    [PollTick; StatusSettled sampleNow executedAnswer] = true
  /\ executeRequests
       (trace
          (utc_run [PollTick; StatusSettled sampleNow executedAnswer]
             (utc_executeOrderById sampleNow (Str "42")
                (Rejected (Str "Gateway timeout")) processingPage)))
     = [Request (ReqExecuteOrder (Str "42"))].
Proof.
  split; [reflexivity|].
  exact (proj2 (proj2 (proj2 (proj2 (proj2 (proj2
           (executeOrderById_gateway_error UTC.StringToNumber
              UTC.NumberToString UTC.DateValue UTC.startOfWeek UTC.endOfWeek
              UTC.NumberFormatUSD UTC.arraySort sampleNow (Str "42")
              (Str "Gateway timeout") processingPage))))))
           [PollTick; StatusSettled sampleNow executedAnswer] eq_refl).
Defined.

(** *** Typed quantities *)

(** C8 as the specification words it fails: 2.5 is not a positive
    integer, yet [parseInt] reads 2 from it, the store takes the 2 and the
    PUT leaves; the input keeps what was typed. *)
Lemma fractional_quantity_is_sent :
  parseIntString true "2.5" = 2%float
  /\ trace (fst (utc_onQuantityInput (Str "7") "2.5" sevenPage))
     = [Request (ReqPutQuantity (Str "7") 2)]
  /\ (fun o => get o "quantity")
       <$> pendingOrdersData
             (fst (utc_onQuantityInput (Str "7") "2.5" sevenPage))
     = [Num 2]
  /\ snd (utc_onQuantityInput (Str "7") "2.5" sevenPage) = None.
Proof. repeat split; vm_compute; reflexivity. Qed.

Lemma quantity_input_rejected_witness :
  (PrimFloat.is_nan (parseIntString true "-3") = true
   \/ (0 <? parseIntString true "-3")%float = false)
  /\ fst (utc_onQuantityInput (Str "7") "-3" sevenPage) = sevenPage
  /\ snd (utc_onQuantityInput (Str "7") "-3" sevenPage) = Some (Num 3).
Proof.
  assert (H : PrimFloat.is_nan (parseIntString true "-3") = true
              \/ (0 <? parseIntString true "-3")%float = false)
    by (right; vm_compute; reflexivity).
  split; [exact H|].
  destruct (quantity_input_rejected UTC.NumberToString (Str "7") "-3"
              sevenPage H) as [Hs Hv].
  split; [exact Hs|].
  rewrite Hv. vm_compute. reflexivity.
Defined.

(** Zero is turned down the same way, and so is text without digits. *)
Lemma quantity_zero_and_text_rejected :
  utc_onQuantityInput (Str "7") "0" sevenPage = (sevenPage, Some (Num 3))
  /\ utc_onQuantityInput (Str "7") "abc" sevenPage = (sevenPage, Some (Num 3)).
Proof. split; vm_compute; reflexivity. Qed.

(** *** Dates near the epoch *)

Lemma formatDate_epoch_is_no_date_witness :
  (Num 3600 = Num 0
   \/ (isUnixTimestamp UTC.NumberToString (Num 3600) = true
       /\ (resolvedTimestamp UTC.NumberToString (Num 3600) <? 86400000)%float
          = true))
  /\ utc_formatDate (Num 3600) = "".
Proof.
  assert (H : Num 3600 = Num 0
              \/ (isUnixTimestamp UTC.NumberToString (Num 3600) = true
                  /\ (resolvedTimestamp UTC.NumberToString (Num 3600)
                      <? 86400000)%float = true))
    by (right; split; vm_compute; reflexivity).
  split; [exact H|].
  exact (formatDate_epoch_is_no_date UTC.NumberToString UTC.DateValue
           UTC.DateFullYear UTC.DateToLocaleString (Num 3600) H).
Defined.

(** The formatter at a few inputs: zero as a number and as text, the last
    second of the first day, the first second of the second day, a time of
    today in seconds and in milliseconds, a missing date, and two ISO
    strings, which are read as Unix timestamps up to their year. *)
Lemma formatDate_samples :
  utc_formatDate (Num 0) = ""
  /\ utc_formatDate (Str "0") = ""
  /\ utc_formatDate (Num 86399) = ""
  /\ utc_formatDate (Num 86400) = "@86400000"
  /\ utc_formatDate (Num 1762100000) = "@1762100000000"
  /\ utc_formatDate (Num 1762100000000) = "@1762100000000"
  /\ utc_formatDate Undefined = ""
  /\ utc_formatDate (Str "1970-01-01T05:00:00Z") = ""
  /\ utc_formatDate (Str "2025-11-02T16:13:20Z") = "".
Proof. repeat split; vm_compute; reflexivity. Qed.

(** *** The timer over a run *)

Lemma scheduler_single_timer_witness :
  singleTimer freshPage
  /\ length (intervals (startAutoRefresh (startAutoRefresh freshPage))) = 1
  /\ length
       (intervals (utc_run sampleRun (withPending [sampleOrder 42 "pending"])))
     <= 1.
Proof.
  split; [reflexivity|].
  split.
  - exact (proj1 (proj2 (proj2 (proj2 (proj2
             (scheduler_single_timer UTC.StringToNumber UTC.NumberToString
                UTC.DateValue UTC.startOfWeek UTC.endOfWeek
                UTC.NumberFormatUSD UTC.arraySort freshPage eq_refl)))))).
  - exact (proj2 (proj2 (proj2 (proj2 (proj2 (proj2 (proj2 (proj2 (proj2
             (scheduler_single_timer UTC.StringToNumber UTC.NumberToString
                UTC.DateValue UTC.startOfWeek UTC.endOfWeek
                UTC.NumberFormatUSD UTC.arraySort
                (withPending [sampleOrder 42 "pending"]) eq_refl))))))))
             sampleRun)).
Defined.

(** The sample run starts the timer when the execute settles and stops it
    when the order is reported executed. *)
Lemma sampleRun_timer :
  autoRefreshTimer
    (utc_run (take 3 sampleRun) (withPending [sampleOrder 42 "pending"]))
  = Some 1%positive
  /\ autoRefreshTimer
       (utc_run sampleRun (withPending [sampleOrder 42 "pending"]))
     = None
  /\ trace (utc_run sampleRun (withPending [sampleOrder 42 "pending"]))
     = [ Request (ReqExecuteOrder (Str "42"));
         Alert "success" (OrderSent (Num 9001));
         Request ReqCheckOrderStatus;
         Request (ReqFetchPendingOrders true) ]%list.
Proof. repeat split; vm_compute; reflexivity. Qed.

(** ** The further properties on the sample host *)

Local Abbreviation utc_loadPendingOrders :=
  (loadPendingOrders UTC.StringToNumber UTC.DateValue UTC.startOfWeek
     UTC.endOfWeek UTC.NumberFormatUSD UTC.arraySort).
Local Abbreviation utc_cancelOrderById_settle :=
  (cancelOrderById_settle UTC.StringToNumber UTC.DateValue UTC.startOfWeek
     UTC.endOfWeek UTC.NumberFormatUSD UTC.arraySort).
Local Abbreviation utc_executeOrderById_settle :=
  (executeOrderById_settle UTC.StringToNumber UTC.DateValue UTC.startOfWeek
     UTC.endOfWeek UTC.NumberFormatUSD UTC.arraySort).
Local Abbreviation utc_checkOrdersStatus_settle :=
  (checkOrdersStatus_settle UTC.StringToNumber UTC.DateValue UTC.startOfWeek
     UTC.endOfWeek UTC.NumberFormatUSD UTC.arraySort).
Local Abbreviation utc_onDOMContentLoaded :=
  (onDOMContentLoaded UTC.StringToNumber UTC.DateValue UTC.startOfWeek
     UTC.endOfWeek UTC.NumberFormatUSD UTC.arraySort).
Local Abbreviation utc_weeklyOrders :=
  (weeklyOrders UTC.DateValue UTC.startOfWeek UTC.endOfWeek).
Local Abbreviation utc_summedOrders :=
  (summedOrders UTC.DateValue UTC.startOfWeek UTC.endOfWeek).
Local Abbreviation utc_merged := (merged UTC.StringToNumber).
Local Abbreviation utc_updateOrderQuantity :=
  (updateOrderQuantity UTC.NumberToString).

Lemma sample_fills_filled : Forall filledOrder [firstFill; secondFill].
Proof. repeat constructor. Qed.

Lemma filled_orders_are_executed_with_price_witness :
  Forall filledOrder (filledOrdersData (setFilled [firstFill] freshPage))
  /\ Forall filledOrder
       (filledOrdersData
          (utc_run sampleRun (setFilled [firstFill] freshPage))).
Proof.
  assert (H : Forall filledOrder
                (filledOrdersData (setFilled [firstFill] freshPage)))
    by (repeat constructor).
  split; [exact H|].
  exact (proj2 (filled_orders_are_executed_with_price UTC.StringToNumber
                  UTC.NumberToString UTC.DateValue UTC.startOfWeek
                  UTC.endOfWeek UTC.NumberFormatUSD UTC.arraySort)
           sampleRun (setFilled [firstFill] freshPage) H).
Defined.

Lemma weekly_total_and_count_witness :
  Forall filledOrder [firstFill; secondFill]
  /\ utc_weeklyOrders sampleNow [firstFill; secondFill]
     = utc_summedOrders sampleNow [firstFill; secondFill].
Proof.
  split; [exact sample_fills_filled|].
  exact (proj2 (proj2
           (weekly_total_and_count UTC.StringToNumber UTC.DateValue
              UTC.startOfWeek UTC.endOfWeek sampleNow
              [firstFill; secondFill])) sample_fills_filled).
Defined.

(** Without the load's filter the two can part: an order of this week
    that is not executed is summed and not counted. *)
Lemma unexecuted_order_is_summed_not_counted :
  length (utc_weeklyOrders sampleNow
            [firstFill; <["status" := Str "canceled"]> secondFill]) = 1
  /\ length (utc_summedOrders sampleNow
               [firstFill; <["status" := Str "canceled"]> secondFill]) = 2
  /\ utc_totalEarnings sampleNow
       [firstFill; <["status" := Str "canceled"]> secondFill]
     = 468.70000000000005%float.
Proof. repeat split; vm_compute; reflexivity. Qed.

Lemma store_size_is_kept_witness :
  length
    (pendingOrdersData
       (utc_run sampleRun (withPending [sampleOrder 42 "pending"])))
  = length (pendingOrdersData (withPending [sampleOrder 42 "pending"])).
Proof.
  exact (store_size_is_kept UTC.StringToNumber UTC.NumberToString
           UTC.DateValue UTC.startOfWeek UTC.endOfWeek UTC.NumberFormatUSD
           UTC.arraySort (fun cmp l => UTC_arraySort_Permutation cmp l)
           sampleRun (withPending [sampleOrder 42 "pending"])).
Defined.

Lemma execute_marks_one_order_witness :
  (findIndex
     (fun o => looseEq UTC.StringToNumber (get o "id") (Str "42"))
     (pendingOrdersData (withPending [sampleOrder 42 "pending"])) = Some 0
   /\ pendingOrdersData (withPending [sampleOrder 42 "pending"]) !! 0
      = Some (sampleOrder 42 "pending"))
  /\ exists o',
       Permutation
         (pendingOrdersData
            (utc_executeOrderById_settle sampleNow (Str "42")
               (Resolved {| ib_order_id := Num 9001;
                            execution_details := None |})
               (withPending [sampleOrder 42 "pending"])))
         (<[0 := o']>
            (pendingOrdersData (withPending [sampleOrder 42 "pending"])))
       /\ markedProcessing
            {| ib_order_id := Num 9001; execution_details := None |}
            (sampleOrder 42 "pending") o'.
Proof.
  assert (H1 : findIndex
                 (fun o => looseEq UTC.StringToNumber (get o "id") (Str "42"))
                 (pendingOrdersData (withPending [sampleOrder 42 "pending"]))
               = Some 0) by (vm_compute; reflexivity).
  assert (H2 : pendingOrdersData (withPending [sampleOrder 42 "pending"]) !! 0
               = Some (sampleOrder 42 "pending")) by reflexivity.
  split; [split; assumption|].
  exact (proj1
           (execute_marks_one_order UTC.StringToNumber UTC.DateValue
              UTC.startOfWeek UTC.endOfWeek UTC.NumberFormatUSD UTC.arraySort
              (fun cmp l => UTC_arraySort_Permutation cmp l) sampleNow
              (Str "42")
              {| ib_order_id := Num 9001; execution_details := None |}
              (withPending [sampleOrder 42 "pending"]))
           0 (sampleOrder 42 "pending") H1 H2).
Defined.

Lemma cancel_marks_one_order_witness :
  (findIndex
     (fun o => looseEq UTC.StringToNumber (get o "id") (Str "42"))
     (pendingOrdersData processingPage) = Some 0
   /\ pendingOrdersData processingPage !! 0
      = Some (sampleOrder 42 "processing"))
  /\ exists o',
       Permutation
         (pendingOrdersData
            (utc_cancelOrderById_settle sampleNow (Str "42")
               (Resolved pendingCancel) processingPage))
         (<[0 := o']> (pendingOrdersData processingPage))
       /\ status o'
          = (if strictEq (ib_status pendingCancel) (Str "PendingCancel")
             then Str "canceling" else Str "canceled")
       /\ get o' "ib_status"
          = (if truthy (ib_status pendingCancel) then ib_status pendingCancel
             else get (sampleOrder 42 "processing") "ib_status")
       /\ (forall k, k <> "status" -> k <> "ib_status" ->
           get o' k = get (sampleOrder 42 "processing") k).
Proof.
  assert (H1 : findIndex
                 (fun o => looseEq UTC.StringToNumber (get o "id") (Str "42"))
                 (pendingOrdersData processingPage) = Some 0)
    by (vm_compute; reflexivity).
  assert (H2 : pendingOrdersData processingPage !! 0
               = Some (sampleOrder 42 "processing")) by reflexivity.
  split; [split; assumption|].
  exact (cancel_marks_one_order UTC.StringToNumber UTC.DateValue
           UTC.startOfWeek UTC.endOfWeek UTC.NumberFormatUSD UTC.arraySort
           (fun cmp l => UTC_arraySort_Permutation cmp l) sampleNow
           (Str "42") pendingCancel processingPage 0
           (sampleOrder 42 "processing") H1 H2).
Defined.

(** The canceled sample order reads [canceling], and the poll timer is
    running afterwards. *)
Lemma cancel_sample :
  status
    <$> pendingOrdersData
          (utc_cancelOrderById_settle sampleNow (Str "42")
             (Resolved pendingCancel) processingPage)
  = [Str "canceling"]
  /\ autoRefreshTimer
       (utc_cancelOrderById_settle sampleNow (Str "42")
          (Resolved pendingCancel) processingPage)
     = Some 1%positive.
Proof. split; vm_compute; reflexivity. Qed.

Lemma poll_without_news_witness :
  (hasTransient (pendingOrdersData processingPage) = true
   /\ withoutNews (Rejected (Str "Failed to fetch")) = true)
  /\ utc_checkOrdersStatus sampleNow (Rejected (Str "Failed to fetch"))
       (Rejected Undefined) processingPage
     = emit (Request ReqCheckOrderStatus) processingPage.
Proof.
  split; [split; reflexivity|].
  exact (poll_without_news UTC.StringToNumber UTC.DateValue UTC.startOfWeek
           UTC.endOfWeek UTC.NumberFormatUSD UTC.arraySort sampleNow
           (Rejected (Str "Failed to fetch")) (Rejected Undefined)
           processingPage eq_refl eq_refl).
Defined.

Lemma reload_only_on_execution_witness :
  snd (utc_checkOrdersStatus_settle sampleNow executedAnswer processingPage)
  = true
  /\ exists result updated,
       executedAnswer = Resolved (Some result)
       /\ updated_orders result = Some updated
       /\ Exists (fun f => get f "status" = Str "executed") updated.
Proof.
  assert (H : snd (utc_checkOrdersStatus_settle sampleNow executedAnswer
                     processingPage) = true) by (vm_compute; reflexivity).
  split; [exact H|].
  exact (proj2
           (reload_only_on_execution UTC.StringToNumber UTC.DateValue
              UTC.startOfWeek UTC.endOfWeek UTC.NumberFormatUSD UTC.arraySort
              sampleNow executedAnswer processingPage) H).
Defined.

Lemma merge_rewrites_first_match_witness :
  (findIndex
     (fun o => looseEq UTC.StringToNumber (get o "id")
                 (get (sampleOrder 42 "executed") "id"))
     [sampleOrder 7 "pending"; sampleOrder 42 "processing"] = Some 1
   /\ [sampleOrder 7 "pending"; sampleOrder 42 "processing"] !! 1
      = Some (sampleOrder 42 "processing"))
  /\ utc_merged (sampleOrder 42 "executed")
       [sampleOrder 7 "pending"; sampleOrder 42 "processing"] !! 0
     = Some (sampleOrder 7 "pending").
Proof.
  assert (H1 : findIndex
                 (fun o => looseEq UTC.StringToNumber (get o "id")
                             (get (sampleOrder 42 "executed") "id"))
                 [sampleOrder 7 "pending"; sampleOrder 42 "processing"]
               = Some 1) by (vm_compute; reflexivity).
  assert (H2 : [sampleOrder 7 "pending"; sampleOrder 42 "processing"] !! 1
               = Some (sampleOrder 42 "processing")) by reflexivity.
  split; [split; assumption|].
  exact (proj2 (proj2 (merge_rewrites_first_match UTC.StringToNumber
                         (sampleOrder 42 "executed")
                         [sampleOrder 7 "pending";
                          sampleOrder 42 "processing"])
                  1 (sampleOrder 42 "processing") H1 H2) 0 ltac:(lia)).
Defined.

Lemma quantity_update_is_not_rolled_back_witness :
  findIndex
    (fun o => strictEq (get o "id")
                (Num (JS.parseInt UTC.NumberToString true (Str "7"))))
    (pendingOrdersData sevenPage) = Some 0
  /\ pendingOrdersData
       (utc_updateOrderQuantity (Str "7") 5 (Rejected (Str "Failed to fetch"))
          sevenPage)
     = alter (fun o => <["quantity" := Num 5]> o) 0
             (pendingOrdersData sevenPage).
Proof.
  assert (H : findIndex
                (fun o => strictEq (get o "id")
                            (Num (JS.parseInt UTC.NumberToString true
                                    (Str "7"))))
                (pendingOrdersData sevenPage) = Some 0)
    by (vm_compute; reflexivity).
  split; [exact H|].
  exact (proj1 (proj1
                  (quantity_update_is_not_rolled_back UTC.NumberToString
                     (Str "7") 5 (Rejected (Str "Failed to fetch")) sevenPage)
                  0 H)).
Defined.

Lemma quantity_requests_are_positive_witness :
  Forall positivePut (trace sevenPage)
  /\ Forall positivePut (trace (utc_run quietRun sevenPage)).
Proof.
  assert (H : Forall positivePut (trace sevenPage)) by constructor.
  split; [exact H|].
  exact (quantity_requests_are_positive UTC.StringToNumber UTC.NumberToString
           UTC.DateValue UTC.startOfWeek UTC.endOfWeek UTC.NumberFormatUSD
           UTC.arraySort quietRun sevenPage H).
Defined.

Lemma poll_only_checks_and_reloads_witness :
  forallb pollTurn pollRun = true
  /\ exists evs,
       trace (utc_run pollRun processingPage)
       = (trace processingPage ++ evs)%list
       /\ Forall pollEvent evs.
Proof.
  split; [reflexivity|].
  exact (poll_only_checks_and_reloads UTC.StringToNumber UTC.NumberToString
           UTC.DateValue UTC.startOfWeek UTC.endOfWeek UTC.NumberFormatUSD
           UTC.arraySort pollRun processingPage eq_refl).
Defined.

Lemma loadPendingOrders_outcomes_witness :
  Permutation
    (pendingOrdersData
       (utc_loadPendingOrders sampleNow
          (Resolved (Some [sampleOrder 7 "pending";
                           sampleOrder 42 "processing"]))
          (Resolved (Some [firstFill])) processingPage))
    [sampleOrder 7 "pending"; sampleOrder 42 "processing"].
Proof.
  exact (proj1
           (loadPendingOrders_outcomes UTC.StringToNumber UTC.DateValue
              UTC.startOfWeek UTC.endOfWeek UTC.NumberFormatUSD UTC.arraySort
              (fun cmp l => UTC_arraySort_Permutation cmp l) sampleNow
              (Resolved (Some [firstFill])) processingPage)
           [sampleOrder 7 "pending"; sampleOrder 42 "processing"]).
Defined.

Lemma formatDate_of_iso_string_witness :
  (decimalDigit "2" = true /\ decimalDigit "0" = true
   /\ decimalDigit "2" = true /\ decimalDigit "5" = true)
  /\ utc_formatDate (Str "2025-11-02T16:13:20Z") = "".
Proof.
  split; [repeat split|].
  exact (formatDate_of_iso_string UTC.NumberToString UTC.DateValue
           UTC.DateFullYear UTC.DateToLocaleString "2" "0" "2" "5"
           "11-02T16:13:20Z" eq_refl eq_refl eq_refl eq_refl).
Defined.

Lemma undated_orders_earn_nothing_witness :
  Forall (fun o => truthy (createdAt o) = false
                   \/ PrimFloat.is_nan (UTC.DateValue (createdAt o)) = true)
         [undatedFill]
  /\ utc_weeklyOrders sampleNow [undatedFill] = []
  /\ utc_totalEarnings sampleNow [undatedFill] = 0%float.
Proof.
  assert (H : Forall
                (fun o => truthy (createdAt o) = false
                          \/ PrimFloat.is_nan (UTC.DateValue (createdAt o))
                             = true) [undatedFill])
    by (constructor; [left; reflexivity | constructor]).
  split; [exact H|].
  destruct (undated_orders_earn_nothing UTC.StringToNumber UTC.DateValue
              UTC.startOfWeek UTC.endOfWeek UTC.NumberFormatUSD sampleNow
              [undatedFill] freshPage H) as (Hw & Ht & _).
  split; assumption.
Defined.

Lemma page_load_never_starts_timer_witness :
  (pendingOrdersData freshPage = [] /\ autoRefreshTimer freshPage = None)
  /\ autoRefreshTimer
       (utc_onDOMContentLoaded sampleNow
          (Resolved (Some [sampleOrder 42 "processing"]))
          (Resolved (Some [])) freshPage)
     = None.
Proof.
  split; [split; reflexivity|].
  exact (proj1
           (page_load_never_starts_timer UTC.StringToNumber UTC.DateValue
              UTC.startOfWeek UTC.endOfWeek UTC.NumberFormatUSD UTC.arraySort
              sampleNow (Resolved (Some [sampleOrder 42 "processing"]))
              (Resolved (Some [])) freshPage eq_refl eq_refl)).
Defined.

(** After that load an order is in flight and no timer runs. *)
Lemma page_load_sample :
  hasTransient
    (pendingOrdersData
       (utc_onDOMContentLoaded sampleNow
          (Resolved (Some [sampleOrder 42 "processing"]))
          (Resolved (Some [])) freshPage))
  = true
  /\ intervals
       (utc_onDOMContentLoaded sampleNow
          (Resolved (Some [sampleOrder 42 "processing"]))
          (Resolved (Some [])) freshPage)
     = [].
Proof. split; vm_compute; reflexivity. Qed.

Lemma timer_starts_only_on_accepted_request_witness :
  (forallb (fun a => negb (acceptedRequest a)) quietRun = true
   /\ autoRefreshTimer sevenPage = None)
  /\ autoRefreshTimer (utc_run quietRun sevenPage) = None.
Proof.
  split; [split; reflexivity|].
  exact (timer_starts_only_on_accepted_request UTC.StringToNumber
           UTC.NumberToString UTC.DateValue UTC.startOfWeek UTC.endOfWeek
           UTC.NumberFormatUSD UTC.arraySort quietRun sevenPage
           eq_refl eq_refl).
Defined.
